(** * The Job resource of the Kubernetes provider

    A shallow embedding of [kubernetes/resource_kubernetes_job_v1.go]:
    the CustomizeDiff rule for [spec.0.ttl_seconds_after_finished], the
    existence check, the update and delete operations and the poller that
    waits for a job to finish.

    Conventions.
    - A Go [error] value is an element of [error]; the nil error is [None]
      of [option error].
    - A Go [interface{}] value is an element of [iface].
    - The cluster behind the client handle is a state of an arbitrary type
      [Remote]; every call on the handle is a state transformer on it and is
      appended to a log of calls.
    - [log.Printf] has no effect on what the functions return and is left
      out. *)

From Stdlib Require Import ZArith Ascii String List Bool Lia.
From stdpp Require Import base option gmap strings list.

Local Open Scope string_scope.
Local Open Scope Z_scope.

(** ** Values of dynamic type *)

(** What [d.Get] and [d.GetChange] hand out: [interface{}]. *)
Inductive iface : Type :=
| INil
| IString (s : string)
| IInt (n : Z)
| IBool (b : bool).

(** The two-result type assertion [v.(string)]: the string and [true], or
    the zero value and [false]. *)
Definition assertString (v : iface) : string * bool :=
  match v with
  | IString s => (s, true)
  | _ => (EmptyString, false)
  end.

(** ** Package strconv *)

Module strconv.

Inductive NumError : Type := ErrSyntax | ErrRange.

Definition isDigit (c : ascii) : bool :=
  let n := Z.of_nat (nat_of_ascii c) in (48 <=? n) && (n <=? 57).

Definition digitVal (c : ascii) : Z := Z.of_nat (nat_of_ascii c) - 48.

Definition maxUint64 : Z := 2 ^ 64 - 1.
Definition maxInt : Z := 2 ^ 63 - 1.
Definition minInt : Z := - 2 ^ 63.

(** The digit loop of [ParseUint] in base 10 on 64 bits: a byte that is not
    a digit is a syntax error, a value that leaves the range is a range
    error, whichever comes first. *)
Fixpoint parseDigits (n : Z) (s : string) : Z + NumError :=
  match s with
  | EmptyString => inl n
  | String c rest =>
      if isDigit c then
        if n >=? maxUint64 / 10 + 1 then inr ErrRange
        else
          let n1 := n * 10 + digitVal c in
          if n1 >? maxUint64 then inr ErrRange else parseDigits n1 rest
      else inr ErrSyntax
  end.

Definition ParseUint (s : string) : Z + NumError :=
  match s with
  | EmptyString => inr ErrSyntax
  | _ => parseDigits 0 s
  end.

(** [ParseInt(s, 10, 0)]: an optional sign, then [ParseUint], then the check
    against the range of a 64-bit [int]. *)
Definition ParseInt (s : string) : Z + NumError :=
  match s with
  | EmptyString => inr ErrSyntax
  | String c rest =>
      let neg := Ascii.eqb c "-" in
      let body := if Ascii.eqb c "+" || neg then rest else s in
      match ParseUint body with
      | inr e => inr e
      | inl un =>
          if negb neg && (un >=? 2 ^ 63) then inr ErrRange
          else if neg && (un >? 2 ^ 63) then inr ErrRange
          else inl (if neg then - un else un)
      end
  end.

(** [strconv.Atoi]: its fast path for short strings computes what [ParseInt]
    computes, so the model is [ParseInt]. *)
Definition Atoi (s : string) : Z + NumError := ParseInt s.

End strconv.

(** ** Packages metav1 and apierrors *)

Module metav1.

(** The part of [metav1.Status] that the error predicates read. *)
Record Status : Type := {
  Reason : string;
  Code : Z;
  Message : string;
}.

(** The part of [metav1.ObjectMeta] that identifies an object. *)
Record ObjectMeta : Type := {
  Namespace : string;
  Name : string;
}.

Definition StatusReasonUnknown : string := EmptyString.
Definition StatusReasonNotFound : string := "NotFound".

End metav1.

(** An error as the client hands it out: an [errors.StatusError] built from
    the server's answer, or an error that carries no API status (transport,
    context, [fmt.Errorf]). *)
Inductive error : Type :=
| StatusError (ErrStatus : metav1.Status)
| PlainError (msg : string).

Definition Error (e : error) : string :=
  match e with
  | StatusError st => metav1.Message st
  | PlainError msg => msg
  end.

Module apierrors.

Definition StatusNotFound : Z := 404.

(** The reasons the API machinery knows, for which the HTTP code is not
    consulted. *)
Definition knownReasons : list string :=
  [ "Unauthorized"; "Forbidden"; "NotFound"; "AlreadyExists"; "Conflict";
    "Gone"; "Invalid"; "ServerTimeout"; "Timeout"; "TooManyRequests";
    "BadRequest"; "MethodNotAllowed"; "NotAcceptable";
    "RequestEntityTooLarge"; "UnsupportedMediaType"; "InternalError";
    "Expired"; "ServiceUnavailable" ].

Definition reasonAndCodeForError (err : error) : string * Z :=
  match err with
  | StatusError st => (metav1.Reason st, metav1.Code st)
  | PlainError _ => (metav1.StatusReasonUnknown, 0)
  end.

(** [apierrors.IsNotFound]. *)
Definition IsNotFound (err : error) : bool :=
  let '(reason, code) := reasonAndCodeForError err in
  if String.eqb reason metav1.StatusReasonNotFound then true
  else if negb (existsb (String.eqb reason) knownReasons) && (code =? StatusNotFound)
  then true
  else false.

(** A name between double quotes, as the verb [%q] prints a name without
    special characters. *)
Definition quoted (s : string) : string :=
  String (ascii_of_nat 34) (s +:+ String (ascii_of_nat 34) EmptyString).

(** The answer of the server for a missing job, as [errors.NewNotFound]
    builds it. *)
Definition NewNotFound (name : string) : error :=
  StatusError {| metav1.Reason := metav1.StatusReasonNotFound;
                 metav1.Code := StatusNotFound;
                 metav1.Message := "jobs.batch " +:+ quoted name +:+ " not found" |}.

End apierrors.

(** The guard of the existence check, the delete operation and the pollers:
    the type assertion of [err] to a pointer to [errors.StatusError]
    succeeds and [errors.IsNotFound] holds of the asserted value. *)
Definition isStatusNotFound (err : error) : bool :=
  match err with
  | StatusError st => apierrors.IsNotFound (StatusError st)
  | PlainError _ => false
  end.

(** ** Packages corev1 and batchv1 *)

Module corev1.
Definition ConditionTrue : string := "True".
Definition ConditionFalse : string := "False".
End corev1.

Module batchv1.

Definition JobComplete : string := "Complete".
Definition JobFailed : string := "Failed".

Record JobCondition : Type := {
  Type_ : string;
  Status : string;
}.

Record JobStatus : Type := {
  Conditions : list JobCondition;
}.

Record Job : Type := {
  JobObjectMeta : metav1.ObjectMeta;
  JobStatus_ : JobStatus;
}.

End batchv1.

(** ** Package diag *)

Module diag.

Inductive Severity : Type := SevError | SevWarning.

Record Diagnostic : Type := {
  DiagSeverity : Severity;
  Summary : string;
}.

(** [diag.Diagnostics]; both [nil] and [diag.Diagnostics{}] are the empty
    list. *)
Definition Diagnostics : Type := list Diagnostic.

Definition Errorf (msg : string) : Diagnostics :=
  [ {| DiagSeverity := SevError; Summary := msg |} ].

Definition FromErr (err : option error) : Diagnostics :=
  match err with
  | None => []
  | Some e => [ {| DiagSeverity := SevError; Summary := Error e |} ]
  end.

Definition HasError (ds : Diagnostics) : bool :=
  existsb (fun x => match DiagSeverity x with SevError => true | SevWarning => false end) ds.

End diag.

(** ** The configuration store: schema.ResourceDiff and schema.ResourceData *)

Definition ttlKey : string := "spec.0.ttl_seconds_after_finished".

(** [ForceNew] and [Clear] belong to the plugin SDK.  The source calls them
    and discards what they return, so a diff keeps the keys they were called
    on, in call order. *)
Module ResourceDiff.

Record t : Type := {
  id : string;
  changes : gmap string (iface * iface);
  forcedNewKeys : list string;
  clearedKeys : list string;
}.

Definition Id (d : t) : string := id d.

Definition GetChange (d : t) (key : string) : iface * iface :=
  default (INil, INil) (changes d !! key).

Definition ForceNew (key : string) (d : t) : t :=
  {| id := id d; changes := changes d;
     forcedNewKeys := forcedNewKeys d ++ [key];
     clearedKeys := clearedKeys d |}.

Definition Clear (key : string) (d : t) : t :=
  {| id := id d; changes := changes d;
     forcedNewKeys := forcedNewKeys d;
     clearedKeys := clearedKeys d ++ [key] |}.

End ResourceDiff.

Module ResourceData.

(** [wait_for_completion] is declared in this file as a boolean with a
    default, so the store always holds a boolean for it; the other attributes
    are read as values of dynamic type. *)
Record t : Type := {
  id : string;
  attrs : gmap string iface;
  wait_for_completion : bool;
  changed : list string;
  timeouts : gmap string nat;
}.

Definition Id (d : t) : string := id d.

Definition Get (d : t) (key : string) : iface :=
  default INil (attrs d !! key).

Definition isZero (v : iface) : bool :=
  match v with
  | INil => true
  | IString s => String.eqb s EmptyString
  | IInt n => n =? 0
  | IBool b => negb b
  end.

(** The value and whether it was set to something other than the zero value
    of its type. *)
Definition GetOk (d : t) (key : string) : iface * bool :=
  (Get d key, negb (isZero (Get d key))).

Definition HasChange (d : t) (key : string) : bool :=
  existsb (String.eqb key) (changed d).

Definition SetId (v : string) (d : t) : t :=
  {| id := v; attrs := attrs d; wait_for_completion := wait_for_completion d;
     changed := changed d; timeouts := timeouts d |}.

(** A timeout is counted in attempts of the retried function. *)
Definition Timeout (d : t) (key : string) : nat :=
  default 0%nat (timeouts d !! key).

End ResourceData.

Definition TimeoutCreate : string := "create".
Definition TimeoutUpdate : string := "update".
Definition TimeoutDelete : string := "delete".

(** ** The remote store seen through the client handle *)

Inductive Call : Type :=
| CallGet (ns name : string)
| CallDelete (ns name : string)
| CallPatch (ns name : string)
| CallCreate (ns name : string).

(** The state of the cluster and the calls made so far. *)
Record World (Remote : Type) : Type := {
  remote : Remote;
  calls : list Call;
}.
Arguments remote {Remote} _.
Arguments calls {Remote} _.

(** [conn.BatchV1().Jobs(ns)]: each method answers and moves the cluster. *)
Record Clientset (Remote : Type) : Type := {
  JobsCreate : string -> batchv1.Job -> Remote -> (batchv1.Job + error) * Remote;
  JobsGet : string -> string -> Remote -> (batchv1.Job + error) * Remote;
  JobsPatch : string -> string -> string -> Remote -> (batchv1.Job + error) * Remote;
  JobsDelete : string -> string -> Remote -> option error * Remote;
}.
Arguments JobsCreate {Remote} _ _ _ _.
Arguments JobsGet {Remote} _ _ _ _.
Arguments JobsPatch {Remote} _ _ _ _ _.
Arguments JobsDelete {Remote} _ _ _ _.

(** [meta.(KubeClientsets)]. *)
Record KubeClientsets (Remote : Type) : Type := {
  MainClientset : Clientset Remote + error;
}.
Arguments MainClientset {Remote} _.

(** Computations that talk to the cluster. *)
Definition M (Remote A : Type) : Type := World Remote -> A * World Remote.

Definition ret {Remote A : Type} (a : A) : M Remote A := fun w => (a, w).

Definition bind {Remote A B : Type} (c : M Remote A) (k : A -> M Remote B)
  : M Remote B :=
  fun w => let '(a, w') := c w in k a w'.

Notation "x <~ c ;; k" := (bind c (fun x => k))
  (at level 100, c at next level, right associativity).

Definition Get {Remote : Type} (conn : Clientset Remote) (ns name : string)
  : M Remote (batchv1.Job + error) :=
  fun w =>
    let '(r, rem) := JobsGet conn ns name (remote w) in
    (r, {| remote := rem; calls := calls w ++ [CallGet ns name] |}).

Definition Create {Remote : Type} (conn : Clientset Remote) (ns : string)
  (job : batchv1.Job) : M Remote (batchv1.Job + error) :=
  fun w =>
    let '(r, rem) := JobsCreate conn ns job (remote w) in
    (r, {| remote := rem;
           calls := calls w ++ [CallCreate ns (metav1.Name (batchv1.JobObjectMeta job))] |}).

Definition Patch {Remote : Type} (conn : Clientset Remote) (ns name data : string)
  : M Remote (batchv1.Job + error) :=
  fun w =>
    let '(r, rem) := JobsPatch conn ns name data (remote w) in
    (r, {| remote := rem; calls := calls w ++ [CallPatch ns name] |}).

Definition Delete {Remote : Type} (conn : Clientset Remote) (ns name : string)
  : M Remote (option error) :=
  fun w =>
    let '(r, rem) := JobsDelete conn ns name (remote w) in
    (r, {| remote := rem; calls := calls w ++ [CallDelete ns name] |}).

(** ** Package retry *)

Module retry.

Record RetryError : Type := {
  Err : error;
  Retryable : bool;
}.

Definition RetryableError (err : error) : option RetryError :=
  Some {| Err := err; Retryable := true |}.

Definition NonRetryableError (err : error) : option RetryError :=
  Some {| Err := err; Retryable := false |}.

Definition RetryFunc (Remote : Type) : Type := M Remote (option RetryError).

Definition TimeoutError : error := PlainError "timeout while waiting".

(** The loop behind [RetryContext]: [f] is tried until it answers nil or an
    error that is not retryable, at most [attempts] times; when the attempts
    are used up the last error is the result. *)
Fixpoint retryLoop {Remote : Type} (attempts : nat) (last : option error)
  (f : RetryFunc Remote) : M Remote (option error) :=
  match attempts with
  | O => ret (Some (default TimeoutError last))
  | S n =>
      r <~ f ;;
      match r with
      | None => ret None
      | Some rerr =>
          if Retryable rerr then retryLoop n (Some (Err rerr)) f
          else ret (Some (Err rerr))
      end
  end.

Definition RetryContext {Remote : Type} (timeout : nat) (f : RetryFunc Remote)
  : M Remote (option error) :=
  retryLoop timeout None f.

End retry.

(** ** What the file takes from the rest of the provider *)

(** The identifier codec, the expansion of the configuration into a job, the
    flattening of a job into the configuration and the construction of JSON
    patches live in other files of the provider. *)
Class Helpers (Remote : Type) : Type := {
  PatchOperation : Type;
  idParts : string -> (string * string) + error;
  buildId : metav1.ObjectMeta -> string;
  (* expandMetadata, expandJobV1Spec and the job literal built from them *)
  expandJob : ResourceData.t -> batchv1.Job + error;
  (* removeGeneratedLabels, flattenMetadata, flattenJobV1Spec and d.Set *)
  flattenJob : batchv1.Job -> ResourceData.t -> KubeClientsets Remote ->
               option error * ResourceData.t;
  patchMetadata : string -> string -> ResourceData.t -> list PatchOperation;
  patchJobV1Spec : string -> string -> ResourceData.t -> list PatchOperation;
  MarshalJSON : list PatchOperation -> string + error;
}.

(** ** resource_kubernetes_job_v1.go *)

Section JobV1.

Context {Remote : Type} `{Helpers Remote}.

(** The TTL of a raw value: nil check, string assertion, [Atoi], and 0 when
    [Atoi] fails. *)
Definition oldTTLInt (d : ResourceDiff.t) : Z :=
  let '(oldTTLRaw, _) := ResourceDiff.GetChange d ttlKey in
  let oldTTLStr :=
    match oldTTLRaw with
    | INil => EmptyString
    | _ => fst (assertString oldTTLRaw)
    end in
  match strconv.Atoi oldTTLStr with
  | inl n => n
  | inr _ => 0
  end.

Definition newTTLInt (d : ResourceDiff.t) : Z :=
  let '(_, newTTLRaw) := ResourceDiff.GetChange d ttlKey in
  let newTTLStr :=
    match newTTLRaw with
    | INil => EmptyString
    | _ => fst (assertString newTTLRaw)
    end in
  match strconv.Atoi newTTLStr with
  | inl n => n
  | inr _ => 0
  end.

Definition resourceKubernetesJobV1CustomizeDiff
  (d : ResourceDiff.t) (meta : KubeClientsets Remote)
  : M Remote (option error * ResourceDiff.t) :=
  if String.eqb (ResourceDiff.Id d) EmptyString then ret (None, d)
  else
    let oldTTL := oldTTLInt d in
    let newTTL := newTTLInt d in
    match MainClientset meta with
    | inr err => ret (Some err, d)
    | inl conn =>
        match idParts (ResourceDiff.Id d) with
        | inr err => ret (Some err, d)
        | inl (namespace, name) =>
            r <~ Get conn namespace name ;;
            match r with
            | inr err =>
                if apierrors.IsNotFound err then
                  if oldTTL >=? 0 then
                    if negb (oldTTL =? newTTL) then
                      ret (None, ResourceDiff.ForceNew ttlKey d)
                    else
                      ret (None, ResourceDiff.Clear "metadata"
                                   (ResourceDiff.Clear "spec" d))
                  else ret (None, d)
                else ret (Some err, d)
            | inl _ =>
                if negb (oldTTL =? newTTL) then
                  ret (None, ResourceDiff.ForceNew ttlKey d)
                else ret (None, d)
            end
        end
    end.

Definition resourceKubernetesJobV1Exists
  (d : ResourceData.t) (meta : KubeClientsets Remote)
  : M Remote (bool * option error) :=
  match MainClientset meta with
  | inr err => ret (false, Some err)
  | inl conn =>
      match idParts (ResourceData.Id d) with
      | inr err => ret (false, Some err)
      | inl (namespace, name) =>
          r <~ Get conn namespace name ;;
          match r with
          | inr err =>
              if isStatusNotFound err then ret (false, None)
              else ret (true, Some err)
          | inl _ => ret (true, None)
          end
      end
  end.

Definition resourceKubernetesJobV1Read
  (d : ResourceData.t) (meta : KubeClientsets Remote)
  : M Remote (diag.Diagnostics * ResourceData.t) :=
  found <~ resourceKubernetesJobV1Exists d meta ;;
  match snd found with
  | Some err => ret (diag.FromErr (Some err), d)
  | None =>
      if negb (fst found) then
        if snd (ResourceData.GetOk d ttlKey) then ret ([], d)
        else ret ([], ResourceData.SetId EmptyString d)
      else
        match MainClientset meta with
        | inr err => ret (diag.FromErr (Some err), d)
        | inl conn =>
            match idParts (ResourceData.Id d) with
            | inr err => ret (diag.FromErr (Some err), d)
            | inl (namespace, name) =>
                r <~ Get conn namespace name ;;
                match r with
                | inr err =>
                    ret (diag.Errorf ("Failed to read Job! API error: " +:+ Error err), d)
                | inl job =>
                    let '(err, d') := flattenJob job d meta in
                    ret (diag.FromErr err, d')
                end
            end
        end
  end.

Definition failedState (ns name : string) : error :=
  PlainError ("job: " +:+ ns +:+ "/" +:+ name +:+ " is in failed state").

Definition notComplete (ns name : string) : error :=
  PlainError ("job: " +:+ ns +:+ "/" +:+ name +:+ " is not in complete state").

(** The loop over [job.Status.Conditions], with the statement that follows
    it as the case of the exhausted list. *)
Fixpoint scanConditions (ns name : string) (cs : list batchv1.JobCondition)
  : option retry.RetryError :=
  match cs with
  | [] => retry.RetryableError (notComplete ns name)
  | c :: rest =>
      if String.eqb (batchv1.Status c) corev1.ConditionTrue then
        if String.eqb (batchv1.Type_ c) batchv1.JobComplete then None
        else if String.eqb (batchv1.Type_ c) batchv1.JobFailed then
          retry.NonRetryableError (failedState ns name)
        else scanConditions ns name rest
      else scanConditions ns name rest
  end.

Definition retryUntilJobV1IsFinished
  (conn : Clientset Remote) (ns name : string) : retry.RetryFunc Remote :=
  r <~ Get conn ns name ;;
  match r with
  | inr err =>
      if isStatusNotFound err then ret None
      else ret (retry.NonRetryableError err)
  | inl job =>
      ret (scanConditions ns name (batchv1.Conditions (batchv1.JobStatus_ job)))
  end.

Definition resourceKubernetesJobV1Create
  (d : ResourceData.t) (meta : KubeClientsets Remote)
  : M Remote (diag.Diagnostics * ResourceData.t) :=
  match MainClientset meta with
  | inr err => ret (diag.FromErr (Some err), d)
  | inl conn =>
      match expandJob d with
      | inr err => ret (diag.FromErr (Some err), d)
      | inl job =>
          r <~ Create conn (metav1.Namespace (batchv1.JobObjectMeta job)) job ;;
          match r with
          | inr err =>
              ret (diag.Errorf ("Failed to create Job! API error: " +:+ Error err), d)
          | inl out =>
              let d := ResourceData.SetId (buildId (batchv1.JobObjectMeta out)) d in
              match idParts (ResourceData.Id d) with
              | inr err => ret (diag.FromErr (Some err), d)
              | inl (namespace, name) =>
                  if ResourceData.wait_for_completion d then
                    err <~ retry.RetryContext (ResourceData.Timeout d TimeoutCreate)
                             (retryUntilJobV1IsFinished conn namespace name) ;;
                    match err with
                    | Some err => ret (diag.FromErr (Some err), d)
                    | None => ret ([], d)
                    end
                  else resourceKubernetesJobV1Read d meta
              end
          end
      end
  end.

(** The TTL the update reads from the recorded configuration. *)
Definition ttlStr (d : ResourceData.t) : string :=
  let ttlAttr := ResourceData.Get d ttlKey in
  fst (assertString ttlAttr).

Definition ttlInt (d : ResourceData.t) : Z :=
  match strconv.Atoi (ttlStr d) with
  | inl n => n
  | inr _ => 0
  end.

Definition deletedMessage (d : ResourceData.t) : string :=
  "Job " +:+ ResourceData.Id d +:+
  " not found; cannot update because it has been deleted".

Definition resourceKubernetesJobV1Update
  (d : ResourceData.t) (meta : KubeClientsets Remote)
  : M Remote (diag.Diagnostics * ResourceData.t) :=
  match MainClientset meta with
  | inr err => ret (diag.FromErr (Some err), d)
  | inl conn =>
      match idParts (ResourceData.Id d) with
      | inr err => ret (diag.FromErr (Some err), d)
      | inl (namespace, name) =>
          r <~ Get conn namespace name ;;
          match r with
          | inr err =>
              if apierrors.IsNotFound err then
                if ttlInt d >=? 0 then ret ([], d)
                else ret (diag.Errorf (deletedMessage d), d)
              else ret (diag.Errorf ("Error retrieving Job: " +:+ Error err), d)
          | inl _ =>
              let ops := patchMetadata "metadata.0." "/metadata/" d in
              let ops :=
                if ResourceData.HasChange d "spec"
                then (ops ++ patchJobV1Spec "/spec" "spec.0." d)%list
                else ops in
              match MarshalJSON ops with
              | inr err =>
                  ret (diag.Errorf ("Failed to marshal update operations: " +:+ Error err), d)
              | inl data =>
                  r <~ Patch conn namespace name data ;;
                  match r with
                  | inr err =>
                      ret (diag.Errorf ("Failed to update Job! API error: " +:+ Error err), d)
                  | inl out =>
                      let d := ResourceData.SetId (buildId (batchv1.JobObjectMeta out)) d in
                      if ResourceData.wait_for_completion d then
                        err <~ retry.RetryContext (ResourceData.Timeout d TimeoutUpdate)
                                 (retryUntilJobV1IsFinished conn namespace name) ;;
                        match err with
                        | Some err => ret (diag.FromErr (Some err), d)
                        | None => resourceKubernetesJobV1Read d meta
                        end
                      else resourceKubernetesJobV1Read d meta
                  end
              end
          end
      end
  end.

(** The function the delete operation retries until the job is gone. *)
Definition deleteConfirm (conn : Clientset Remote) (namespace name : string)
  : retry.RetryFunc Remote :=
  r <~ Get conn namespace name ;;
  match r with
  | inr err =>
      if isStatusNotFound err then ret None
      else ret (retry.NonRetryableError err)
  | inl _ =>
      ret (retry.RetryableError (PlainError ("Job " +:+ name +:+ " still exists")))
  end.

Definition resourceKubernetesJobV1Delete
  (d : ResourceData.t) (meta : KubeClientsets Remote)
  : M Remote (diag.Diagnostics * ResourceData.t) :=
  match MainClientset meta with
  | inr err => ret (diag.FromErr (Some err), d)
  | inl conn =>
      match idParts (ResourceData.Id d) with
      | inr err => ret (diag.FromErr (Some err), d)
      | inl (namespace, name) =>
          err <~ Delete conn namespace name ;;
          match err with
          | Some err =>
              if isStatusNotFound err then ret ([], d)
              else ret (diag.Errorf ("Failed to delete Job! API error: " +:+ Error err), d)
          | None =>
              err <~ retry.RetryContext (ResourceData.Timeout d TimeoutDelete)
                       (deleteConfirm conn namespace name) ;;
              match err with
              | Some err => ret (diag.FromErr (Some err), d)
              | None => ret ([], ResourceData.SetId EmptyString d)
              end
          end
      end
  end.

End JobV1.

(** ** What the claims speak of *)

(** A diff on which [ForceNew] was called for [key]. *)
Definition forcesNew (key : string) (d : ResourceDiff.t) : Prop :=
  In key (ResourceDiff.forcedNewKeys d).

(** The world after one [Get] that left the cluster in [rem]. *)
Definition afterGet {Remote : Type} (w : World Remote) (ns name : string)
  (rem : Remote) : World Remote :=
  {| remote := rem; calls := calls w ++ [CallGet ns name] |}.

Definition afterDelete {Remote : Type} (w : World Remote) (ns name : string)
  (rem : Remote) : World Remote :=
  {| remote := rem; calls := calls w ++ [CallDelete ns name] |}.

(** The cluster answers a delete of the job with a not-found status error:
    the job is already absent. *)
Definition absent {Remote : Type} (conn : Clientset Remote) (ns name : string)
  (r : Remote) : Prop :=
  exists err rem,
    JobsDelete conn ns name r = (Some err, rem) /\
    isStatusNotFound err = true.

Definition isTrue (c : batchv1.JobCondition) : bool :=
  String.eqb (batchv1.Status c) corev1.ConditionTrue.

Definition isComplete (c : batchv1.JobCondition) : bool :=
  String.eqb (batchv1.Type_ c) batchv1.JobComplete.

Definition isFailed (c : batchv1.JobCondition) : bool :=
  String.eqb (batchv1.Type_ c) batchv1.JobFailed.

(** A condition that ends the wait: true, and Complete or Failed. *)
Definition terminal (c : batchv1.JobCondition) : bool :=
  isTrue c && (isComplete c || isFailed c).

(** ** An in-memory cluster and concrete inputs *)

Module fake.

Abbreviation Cluster := (gmap (string * string) batchv1.Job).

(** The answer of the server to the creation of a job that exists. *)
Definition alreadyExists (name : string) : error :=
  StatusError {| metav1.Reason := "AlreadyExists"; metav1.Code := 409;
                 metav1.Message := "jobs.batch " +:+ apierrors.quoted name +:+ " already exists" |}.

Definition clientset : Clientset Cluster :=
  {| JobsCreate := fun ns job c =>
       let name := metav1.Name (batchv1.JobObjectMeta job) in
       match c !! (ns, name) with
       | Some _ => (inr (alreadyExists name), c)
       | None => (inl job, <[ (ns, name) := job ]> c)
       end;
     JobsPatch := fun ns name _ c =>
       (match c !! (ns, name) with
        | Some job => inl job
        | None => inr (apierrors.NewNotFound name)
        end, c);
     JobsGet := fun ns name c =>
       (match c !! (ns, name) with
        | Some job => inl job
        | None => inr (apierrors.NewNotFound name)
        end, c);
     JobsDelete := fun ns name c =>
       match c !! (ns, name) with
       | Some _ => (None, delete (ns, name) c)
       | None => (Some (apierrors.NewNotFound name), c)
       end |}.

Definition meta : KubeClientsets Cluster :=
  {| MainClientset := inl clientset |}.

(** A client whose every call fails in transport. *)
Definition refused : error := PlainError "connection refused".

Definition brokenClientset : Clientset Cluster :=
  {| JobsCreate := fun _ _ c => (inr refused, c);
     JobsPatch := fun _ _ _ c => (inr refused, c);
     JobsGet := fun _ _ c => (inr refused, c);
     JobsDelete := fun _ _ c => (Some refused, c) |}.

Definition brokenMeta : KubeClientsets Cluster :=
  {| MainClientset := inl brokenClientset |}.

Definition emptyWorld : World Cluster := {| remote := ∅; calls := [] |}.

Definition condition (ty st : string) : batchv1.JobCondition :=
  {| batchv1.Type_ := ty; batchv1.Status := st |}.

Definition jobWith (cs : list batchv1.JobCondition) : batchv1.Job :=
  {| batchv1.JobObjectMeta :=
       {| metav1.Namespace := "prod"; metav1.Name := "batch-job-7" |};
     batchv1.JobStatus_ := {| batchv1.Conditions := cs |} |}.

Definition worldWith (job : batchv1.Job) : World Cluster :=
  {| remote := {[ ("prod", "batch-job-7") := job ]}; calls := [] |}.

Definition diffOf (old new : iface) : ResourceDiff.t :=
  {| ResourceDiff.id := "prod,batch-job-7";
     ResourceDiff.changes := {[ ttlKey := (old, new) ]};
     ResourceDiff.forcedNewKeys := [];
     ResourceDiff.clearedKeys := [] |}.

Definition dataOf (ttl : option iface) : ResourceData.t :=
  {| ResourceData.id := "prod,batch-job-7";
     ResourceData.attrs :=
       match ttl with Some v => {[ ttlKey := v ]} | None => ∅ end;
     ResourceData.wait_for_completion := true;
     ResourceData.changed := [];
     ResourceData.timeouts :=
       {[ TimeoutCreate := 3%nat; TimeoutUpdate := 3%nat; TimeoutDelete := 3%nat ]} |}.

(** [strings.Split] on a one-byte separator. *)
Fixpoint split (sep : ascii) (s : string) : list string :=
  match s with
  | EmptyString => [EmptyString]
  | String c rest =>
      if Ascii.eqb c sep then EmptyString :: split sep rest
      else
        match split sep rest with
        | [] => [String c EmptyString]
        | p :: ps => String c p :: ps
        end
  end.

(** Modelled from the spec: [idParts], the identifier codec of the provider,
    which is not in this file.  An identifier is [namespace,name]; decoding
    fails unless the token splits into exactly two non-empty parts. *)
Definition idPartsSpec (id : string) : (string * string) + error :=
  match split "," id with
  | [ns; name] =>
      if String.eqb ns EmptyString || String.eqb name EmptyString
      then inr (PlainError ("Unexpected ID format: " +:+ id))
      else inl (ns, name)
  | _ => inr (PlainError ("Unexpected ID format: " +:+ id))
  end.

(** Stand-ins for the other helpers of the provider, for the concrete
    inputs. *)
#[global] Instance helpers : Helpers Cluster :=
  {| PatchOperation := string;
     idParts := idPartsSpec;
     buildId := fun m => metav1.Namespace m +:+ "," +:+ metav1.Name m;
     expandJob := fun _ => inl (jobWith []);
     flattenJob := fun _ d _ => (None, d);
     patchMetadata := fun _ _ _ => [];
     patchJobV1Spec := fun _ _ _ => [];
     MarshalJSON := fun _ => inl "[]" |}.

End fake.

(** ** Reading the log of calls *)

Definition isGet (c : Call) : bool :=
  match c with
  | CallGet _ _ => true
  | _ => false
  end.

Definition isPatch (c : Call) : bool :=
  match c with
  | CallPatch _ _ => true
  | _ => false
  end.

(** The job a fetched answer shows as finished: its first true Complete or
    Failed condition is Complete. *)
Definition finished (job : batchv1.Job) : bool :=
  match List.find terminal (batchv1.Conditions (batchv1.JobStatus_ job)) with
  | Some c => isComplete c
  | None => false
  end.

(** No true Complete or Failed condition yet. *)
Definition unfinished (job : batchv1.Job) : bool :=
  forallb (fun c => negb (terminal c)) (batchv1.Conditions (batchv1.JobStatus_ job)).

(** What a lookup answer means for the wait: nothing more to wait for unless
    the job is there and unfinished. *)
Definition settled (ans : batchv1.Job + error) : bool :=
  match ans with
  | inl job => negb (unfinished job)
  | inr _ => true
  end.

(** The error, if any, with which the wait ends on a settled answer. *)
Definition pollOutcome (ns name : string) (ans : batchv1.Job + error)
  : option error :=
  match ans with
  | inr err => if isStatusNotFound err then None else Some err
  | inl job => if finished job then None else Some (failedState ns name)
  end.

(** [k] lookups in a row find the job, each time with [P] true of it, and
    take the cluster from [r] to [r']. *)
Fixpoint lookupsFind {Remote : Type} (conn : Clientset Remote) (ns name : string)
  (P : batchv1.Job -> bool) (k : nat) (r r' : Remote) : Prop :=
  match k with
  | O => r = r'
  | S k' =>
      exists job r1,
        JobsGet conn ns name r = (inl job, r1) /\ P job = true
        /\ lookupsFind conn ns name P k' r1 r'
  end.

Definition stillExists (name : string) : error :=
  PlainError ("Job " +:+ name +:+ " still exists").

(** The patch the update sends: the operations on the metadata, followed by
    those on the spec when the spec has changed. *)
Definition updateOps {Remote : Type} `{Helpers Remote} (d : ResourceData.t)
  : list PatchOperation :=
  let ops := patchMetadata "metadata.0." "/metadata/" d in
  if ResourceData.HasChange d "spec"
  then (ops ++ patchJobV1Spec "/spec" "spec.0." d)%list
  else ops.

(** The configuration once the identifier of the job the cluster returned is
    recorded. *)
Definition recorded {Remote : Type} `{Helpers Remote} (out : batchv1.Job)
  (d : ResourceData.t) : ResourceData.t :=
  ResourceData.SetId (buildId (batchv1.JobObjectMeta out)) d.

(** ** A scripted client and more concrete inputs *)

Module scripted.

(** The cluster is the list of answers still to be given to lookups; the
    other calls succeed and leave the script as it is. *)
Abbreviation Script := (list (batchv1.Job + error)).

Definition clientset : Clientset Script :=
  {| JobsCreate := fun _ job rs => (inl job, rs);
     JobsPatch := fun _ _ _ rs => (inl (fake.jobWith []), rs);
     JobsGet := fun _ _ rs =>
       match rs with
       | r :: rest => (r, rest)
       | [] => (inr fake.refused, [])
       end;
     JobsDelete := fun _ _ rs => (None, rs) |}.

Definition meta : KubeClientsets Script :=
  {| MainClientset := inl clientset |}.

(** A client whose patch call is refused. *)
Definition noPatchClientset : Clientset Script :=
  {| JobsCreate := JobsCreate clientset;
     JobsPatch := fun _ _ _ rs => (inr fake.refused, rs);
     JobsGet := JobsGet clientset;
     JobsDelete := JobsDelete clientset |}.

Definition noPatchMeta : KubeClientsets Script :=
  {| MainClientset := inl noPatchClientset |}.

(** No client at all. *)
Definition noClient : error := PlainError "no configuration provided".

Definition noMeta : KubeClientsets Script :=
  {| MainClientset := inr noClient |}.

Definition world (rs : Script) : World Script :=
  {| remote := rs; calls := [] |}.

#[global] Instance helpers : Helpers Script :=
  {| PatchOperation := string;
     idParts := fake.idPartsSpec;
     buildId := fun m => metav1.Namespace m +:+ "," +:+ metav1.Name m;
     expandJob := fun _ => inl (fake.jobWith []);
     flattenJob := fun _ d _ => (None, d);
     patchMetadata := fun _ _ _ => [];
     patchJobV1Spec := fun _ _ _ => [];
     MarshalJSON := fun _ => inl "[]" |}.

(** Helpers whose patch cannot be marshalled. *)
Definition noMarshal : Helpers Script :=
  {| PatchOperation := string;
     idParts := fake.idPartsSpec;
     buildId := fun m => metav1.Namespace m +:+ "," +:+ metav1.Name m;
     expandJob := fun _ => inl (fake.jobWith []);
     flattenJob := fun _ d _ => (None, d);
     patchMetadata := fun _ _ _ => [];
     patchJobV1Spec := fun _ _ _ => [];
     MarshalJSON := fun _ => inr (PlainError "unsupported value") |}.

(** A configuration that does not wait for completion. *)
Definition dataNoWait (ttl : option iface) : ResourceData.t :=
  {| ResourceData.id := "prod,batch-job-7";
     ResourceData.attrs :=
       match ttl with Some v => {[ ttlKey := v ]} | None => ∅ end;
     ResourceData.wait_for_completion := false;
     ResourceData.changed := ["spec"];
     ResourceData.timeouts :=
       {[ TimeoutCreate := 3%nat; TimeoutUpdate := 3%nat; TimeoutDelete := 3%nat ]} |}.

(** A configuration with a malformed identifier. *)
Definition dataBadId : ResourceData.t :=
  {| ResourceData.id := "badtoken";
     ResourceData.attrs := ∅;
     ResourceData.wait_for_completion := true;
     ResourceData.changed := [];
     ResourceData.timeouts := ∅ |}.

End scripted.

(** A cluster that accepts the deletion of a job and keeps the job. *)
Definition stuckClientset : Clientset fake.Cluster :=
  {| JobsCreate := JobsCreate fake.clientset;
     JobsPatch := JobsPatch fake.clientset;
     JobsGet := JobsGet fake.clientset;
     JobsDelete := fun _ _ c => (None, c) |}.

Definition stuckMeta : KubeClientsets fake.Cluster :=
  {| MainClientset := inl stuckClientset |}.

Example idParts_prod : fake.idPartsSpec "prod,batch-job-7" = inl ("prod", "batch-job-7").
Proof. reflexivity. Qed.

Example idParts_bad : exists e, fake.idPartsSpec "badtoken" = inr e.
Proof. eexists. reflexivity. Qed.

Example atoi_examples :
  strconv.Atoi "30" = inl 30 /\ strconv.Atoi "-1" = inl (-1) /\
  strconv.Atoi "+7" = inl 7 /\ strconv.Atoi EmptyString = inr strconv.ErrSyntax /\
  strconv.Atoi "-" = inr strconv.ErrSyntax /\ strconv.Atoi "1_0" = inr strconv.ErrSyntax /\
  strconv.Atoi "9223372036854775807" = inl (2 ^ 63 - 1) /\
  strconv.Atoi "9223372036854775808" = inr strconv.ErrRange /\
  strconv.Atoi "-9223372036854775808" = inl (- 2 ^ 63) /\
  strconv.Atoi "-9223372036854775809" = inr strconv.ErrRange /\
  strconv.Atoi "99999999999999999999x" = inr strconv.ErrRange /\
  strconv.Atoi "12a" = inr strconv.ErrSyntax /\
  strconv.Atoi " 12" = inr strconv.ErrSyntax.
Proof. repeat split; vm_compute; reflexivity. Qed.

(** ** Tactics *)

(** Closed facts about concrete inputs are settled by evaluation. *)
Ltac by_evaluation :=
  first [ reflexivity
        | vm_compute; first [ reflexivity | discriminate | lia ] ].

(** Discharges the premises of [H] at a concrete input, one by one. *)
Ltac at_input H :=
  repeat match type of H with
         | ?P -> _ =>
             let HP := fresh "HP" in
             assert (HP : P) by by_evaluation;
             specialize (H HP); clear HP
         end.

(** ** Parsing *)

Lemma digitVal_nonneg (c : ascii) : strconv.isDigit c = true -> 0 <= strconv.digitVal c.
Proof.
  unfold strconv.isDigit, strconv.digitVal. intros H.
  apply andb_prop in H. destruct H as [Hlo _].
  apply Z.leb_le in Hlo. lia.
Qed.

Lemma parseDigits_nonneg (s : string) :
  forall n m, 0 <= n -> strconv.parseDigits n s = inl m -> 0 <= m.
Proof.
  induction s as [| c rest IH]; intros n m Hn Hparse; simpl in Hparse.
  - injection Hparse as <-. exact Hn.
  - destruct (strconv.isDigit c) eqn:Hdigit; [| discriminate].
    destruct (n >=? strconv.maxUint64 / 10 + 1); [discriminate |].
    destruct (n * 10 + strconv.digitVal c >? strconv.maxUint64); [discriminate |].
    pose proof (digitVal_nonneg c Hdigit) as Hd.
    apply (IH (n * 10 + strconv.digitVal c) m); [lia | exact Hparse].
Qed.

(** What [Atoi] returns without error fits a 64-bit [int]. *)
Lemma Atoi_range (s : string) (n : Z) :
  strconv.Atoi s = inl n -> strconv.minInt <= n <= strconv.maxInt.
Proof.
  unfold strconv.Atoi, strconv.ParseInt, strconv.minInt, strconv.maxInt.
  destruct s as [| c rest]; [discriminate |].
  set (body := if (Ascii.eqb c "+" || Ascii.eqb c "-")%bool then rest else String c rest).
  destruct (strconv.ParseUint body) as [un | e] eqn:Hun; [| discriminate].
  assert (Hnonneg : 0 <= un).
  { unfold strconv.ParseUint in Hun. destruct body; [discriminate |].
    apply (parseDigits_nonneg _ 0 un (Z.le_refl 0) Hun). }
  destruct (Ascii.eqb c "-"); simpl.
  - destruct (Z.gtb_spec un (2 ^ 63)) as [Hgt | Hle]; [discriminate |].
    intros Hres. injection Hres as <-. lia.
  - destruct (Z.geb_spec un (2 ^ 63)) as [Hge | Hlt]; [discriminate |].
    intros Hres. injection Hres as <-. lia.
Qed.

(** ** Errors *)

(** On the errors the client hands out, the guard with the type assertion
    and the plain call of [apierrors.IsNotFound] agree. *)
Lemma isStatusNotFound_IsNotFound (err : error) :
  isStatusNotFound err = apierrors.IsNotFound err.
Proof. destruct err as [st | msg]; reflexivity. Qed.

(** The error the server gives for a missing job is a not-found one. *)
Lemma NewNotFound_IsNotFound (name : string) :
  apierrors.IsNotFound (apierrors.NewNotFound name) = true.
Proof. reflexivity. Qed.

(** An error without API status is never a not-found one. *)
Lemma PlainError_not_IsNotFound (msg : string) :
  apierrors.IsNotFound (PlainError msg) = false.
Proof. reflexivity. Qed.

(** ** The CustomizeDiff rule *)

Section DiffRule.

Context {Remote : Type} `{Helpers Remote}.

Local Abbreviation rule := resourceKubernetesJobV1CustomizeDiff.

(** Past the identifier check, the client and the codec, the rule is one
    lookup followed by a decision on its answer. *)
Lemma rule_after_lookup (d : ResourceDiff.t) (meta : KubeClientsets Remote)
  (conn : Clientset Remote) (ns name : string) (w : World Remote)
  (r : batchv1.Job + error) (rem : Remote) :
  ResourceDiff.Id d <> EmptyString ->
  MainClientset meta = inl conn ->
  idParts (ResourceDiff.Id d) = inl (ns, name) ->
  JobsGet conn ns name (remote w) = (r, rem) ->
  rule d meta w =
  (match r with
   | inr err =>
       if apierrors.IsNotFound err then
         if oldTTLInt d >=? 0 then
           if negb (oldTTLInt d =? newTTLInt d)
           then (None, ResourceDiff.ForceNew ttlKey d)
           else (None, ResourceDiff.Clear "metadata" (ResourceDiff.Clear "spec" d))
         else (None, d)
       else (Some err, d)
   | inl _ =>
       if negb (oldTTLInt d =? newTTLInt d)
       then (None, ResourceDiff.ForceNew ttlKey d)
       else (None, d)
   end, afterGet w ns name rem).
Proof.
  intros Hid Hconn Hparts Hget.
  unfold resourceKubernetesJobV1CustomizeDiff.
  apply String.eqb_neq in Hid. rewrite Hid, Hconn, Hparts.
  unfold bind, Get, afterGet. rewrite Hget.
  destruct r as [job | err]; unfold ret.
  - destruct (negb _); reflexivity.
  - destruct (apierrors.IsNotFound err); [| reflexivity].
    destruct (oldTTLInt d >=? 0); [| reflexivity].
    destruct (negb _); reflexivity.
Qed.

(** With no identifier recorded the rule does nothing and calls nothing. *)
Lemma rule_not_created (d : ResourceDiff.t) (meta : KubeClientsets Remote)
  (w : World Remote) :
  ResourceDiff.Id d = EmptyString -> rule d meta w = ((None, d), w).
Proof.
  intros Hid. unfold resourceKubernetesJobV1CustomizeDiff.
  rewrite Hid. reflexivity.
Qed.

(** C1, as amended: when the resource has an identifier, the lookup of the
    job fails with not-found, the old TTL is not negative and differs from
    the new one, the rule returns no error and calls [ForceNew] on
    [spec.0.ttl_seconds_after_finished]; nothing is cleared and the lookup is
    the only remote call. *)
Theorem diff_absent_changed_forces_new
  (d : ResourceDiff.t) (meta : KubeClientsets Remote)
  (conn : Clientset Remote) (ns name : string) (w : World Remote)
  (err : error) (rem : Remote) :
  ResourceDiff.Id d <> EmptyString ->
  MainClientset meta = inl conn ->
  idParts (ResourceDiff.Id d) = inl (ns, name) ->
  JobsGet conn ns name (remote w) = (inr err, rem) ->
  apierrors.IsNotFound err = true ->
  0 <= oldTTLInt d ->
  oldTTLInt d <> newTTLInt d ->
  rule d meta w = ((None, ResourceDiff.ForceNew ttlKey d), afterGet w ns name rem)
  /\ forcesNew ttlKey (ResourceDiff.ForceNew ttlKey d)
  /\ ResourceDiff.clearedKeys (ResourceDiff.ForceNew ttlKey d)
     = ResourceDiff.clearedKeys d.
Proof.
  intros Hid Hconn Hparts Hget Hnf Hold Hne.
  rewrite (rule_after_lookup d meta conn ns name w _ rem Hid Hconn Hparts Hget).
  rewrite Hnf.
  apply Z.geb_le in Hold. rewrite Hold.
  apply Z.eqb_neq in Hne. rewrite Hne. simpl.
  split; [reflexivity |]. split; [| reflexivity].
  unfold forcesNew. simpl. apply in_or_app. right. left. reflexivity.
Qed.


(** C3: when the resource has an identifier and the lookup finds the job,
    the rule calls [ForceNew] on [spec.0.ttl_seconds_after_finished] if the
    old and new TTL differ, and leaves the diff as it is if they are equal;
    in both cases it returns no error. *)
Theorem diff_present
  (d : ResourceDiff.t) (meta : KubeClientsets Remote)
  (conn : Clientset Remote) (ns name : string) (w : World Remote)
  (job : batchv1.Job) (rem : Remote) :
  ResourceDiff.Id d <> EmptyString ->
  MainClientset meta = inl conn ->
  idParts (ResourceDiff.Id d) = inl (ns, name) ->
  JobsGet conn ns name (remote w) = (inl job, rem) ->
  (oldTTLInt d <> newTTLInt d ->
   rule d meta w = ((None, ResourceDiff.ForceNew ttlKey d), afterGet w ns name rem)
   /\ forcesNew ttlKey (ResourceDiff.ForceNew ttlKey d))
  /\ (oldTTLInt d = newTTLInt d ->
      rule d meta w = ((None, d), afterGet w ns name rem)).
Proof.
  intros Hid Hconn Hparts Hget.
  rewrite (rule_after_lookup d meta conn ns name w _ rem Hid Hconn Hparts Hget).
  split.
  - intros Hne. apply Z.eqb_neq in Hne. rewrite Hne. simpl.
    split; [reflexivity |].
    unfold forcesNew. simpl. apply in_or_app. right. left. reflexivity.
  - intros Heq. apply Z.eqb_eq in Heq. rewrite Heq. reflexivity.
Qed.

(** C8: when the lookup fails with not-found and the old TTL is negative,
    the rule returns no error and the diff it was given, whatever the new
    TTL: nothing is forced and nothing is cleared. *)
Theorem diff_absent_negative_noop
  (d : ResourceDiff.t) (meta : KubeClientsets Remote)
  (conn : Clientset Remote) (ns name : string) (w : World Remote)
  (err : error) (rem : Remote) :
  ResourceDiff.Id d <> EmptyString ->
  MainClientset meta = inl conn ->
  idParts (ResourceDiff.Id d) = inl (ns, name) ->
  JobsGet conn ns name (remote w) = (inr err, rem) ->
  apierrors.IsNotFound err = true ->
  oldTTLInt d < 0 ->
  rule d meta w = ((None, d), afterGet w ns name rem).
Proof.
  intros Hid Hconn Hparts Hget Hnf Hold.
  rewrite (rule_after_lookup d meta conn ns name w _ rem Hid Hconn Hparts Hget).
  rewrite Hnf.
  destruct (Z.geb_spec (oldTTLInt d) 0) as [Hge | _]; [lia | reflexivity].
Qed.

End DiffRule.

(** C1 at a concrete input: old TTL 30, new TTL 60, empty cluster. *)
Lemma diff_absent_changed_forces_new_witness :
  resourceKubernetesJobV1CustomizeDiff
    (fake.diffOf (IString "30") (IString "60")) fake.meta fake.emptyWorld
  = ((None, ResourceDiff.ForceNew ttlKey (fake.diffOf (IString "30") (IString "60"))),
     afterGet fake.emptyWorld "prod" "batch-job-7" ∅).
Proof.
  pose proof (diff_absent_changed_forces_new (fake.diffOf (IString "30") (IString "60")) fake.meta
                fake.clientset "prod" "batch-job-7" fake.emptyWorld
                (apierrors.NewNotFound "batch-job-7") ∅) as H.
  at_input H. exact (proj1 H).
Defined.

(** The statement of C1 without the bound on the old TTL fails: with old TTL
    -1 and new TTL 5 on an empty cluster the identifier is recorded, the
    lookup answers not-found, the two TTLs differ, and the rule returns the
    diff it was given, on which nothing is forced. *)
Lemma diff_absent_changed_negative_old_not_forced :
  ResourceDiff.Id (fake.diffOf (IString "-1") (IString "5")) <> EmptyString
  /\ MainClientset fake.meta = inl fake.clientset
  /\ idParts (ResourceDiff.Id (fake.diffOf (IString "-1") (IString "5")))
     = inl ("prod", "batch-job-7")
  /\ JobsGet fake.clientset "prod" "batch-job-7" (remote fake.emptyWorld)
     = (inr (apierrors.NewNotFound "batch-job-7"), ∅)
  /\ apierrors.IsNotFound (apierrors.NewNotFound "batch-job-7") = true
  /\ oldTTLInt (fake.diffOf (IString "-1") (IString "5")) = -1
  /\ newTTLInt (fake.diffOf (IString "-1") (IString "5")) = 5
  /\ oldTTLInt (fake.diffOf (IString "-1") (IString "5"))
     <> newTTLInt (fake.diffOf (IString "-1") (IString "5"))
  /\ resourceKubernetesJobV1CustomizeDiff
       (fake.diffOf (IString "-1") (IString "5")) fake.meta fake.emptyWorld
     = ((None, fake.diffOf (IString "-1") (IString "5")),
        afterGet fake.emptyWorld "prod" "batch-job-7" ∅)
  /\ ~ forcesNew ttlKey (fake.diffOf (IString "-1") (IString "5")).
Proof.
  repeat split; by_evaluation.
Qed.



(** C3 at concrete inputs: a live job, TTL changed from 30 to 60. *)
Lemma diff_present_witness :
  resourceKubernetesJobV1CustomizeDiff
    (fake.diffOf (IString "30") (IString "60")) fake.meta
    (fake.worldWith (fake.jobWith []))
  = ((None, ResourceDiff.ForceNew ttlKey (fake.diffOf (IString "30") (IString "60"))),
     afterGet (fake.worldWith (fake.jobWith [])) "prod" "batch-job-7"
       (remote (fake.worldWith (fake.jobWith [])))).
Proof.
  pose proof (diff_present (fake.diffOf (IString "30") (IString "60")) fake.meta
                fake.clientset "prod" "batch-job-7"
                (fake.worldWith (fake.jobWith [])) (fake.jobWith [])
                (remote (fake.worldWith (fake.jobWith [])))) as H.
  at_input H. destruct H as [H _].
  at_input H. exact (proj1 H).
Defined.

(** C8 at a concrete input: old TTL -1, new TTL 5, empty cluster. *)
Lemma diff_absent_negative_noop_witness :
  resourceKubernetesJobV1CustomizeDiff
    (fake.diffOf (IString "-1") (IString "5")) fake.meta fake.emptyWorld
  = ((None, fake.diffOf (IString "-1") (IString "5")),
     afterGet fake.emptyWorld "prod" "batch-job-7" ∅).
Proof.
  pose proof (diff_absent_negative_noop (fake.diffOf (IString "-1") (IString "5")) fake.meta
                fake.clientset "prod" "batch-job-7" fake.emptyWorld
                (apierrors.NewNotFound "batch-job-7") ∅) as H.
  at_input H. exact H.
Defined.

(** ** The completion poller *)

Section Poller.

Context {Remote : Type} `{Helpers Remote}.

(** Conditions whose status is not true play no part in the scan. *)
Lemma scan_filter_true (ns name : string) (cs : list batchv1.JobCondition) :
  scanConditions ns name cs = scanConditions ns name (List.filter isTrue cs).
Proof.
  induction cs as [| c rest IH]; [reflexivity |].
  simpl. unfold isTrue at 1.
  destruct (String.eqb (batchv1.Status c) corev1.ConditionTrue) eqn:Htrue.
  - simpl. rewrite Htrue. rewrite IH. reflexivity.
  - exact IH.
Qed.

(** A prefix without a true Complete or Failed condition is passed over. *)
Lemma scan_skip_prefix (ns name : string) (pre rest : list batchv1.JobCondition) :
  forallb (fun x => negb (terminal x)) pre = true ->
  scanConditions ns name (pre ++ rest) = scanConditions ns name rest.
Proof.
  induction pre as [| c pre IH]; intros Hpre; [reflexivity |].
  simpl in Hpre. apply andb_prop in Hpre. destruct Hpre as [Hc Hpre].
  simpl. unfold terminal, isTrue, isComplete, isFailed in Hc.
  destruct (String.eqb (batchv1.Status c) corev1.ConditionTrue);
    [| exact (IH Hpre)].
  destruct (String.eqb (batchv1.Type_ c) batchv1.JobComplete);
    [discriminate Hc |].
  destruct (String.eqb (batchv1.Type_ c) batchv1.JobFailed);
    [discriminate Hc |].
  exact (IH Hpre).
Qed.

(** The scan answers as the first true Complete or Failed condition says. *)
Lemma scan_first_terminal (ns name : string) (cs : list batchv1.JobCondition) :
  scanConditions ns name cs =
  match List.find terminal cs with
  | Some c =>
      if isComplete c then None
      else retry.NonRetryableError (failedState ns name)
  | None => retry.RetryableError (notComplete ns name)
  end.
Proof.
  induction cs as [| c rest IH]; [reflexivity |].
  simpl. unfold terminal, isTrue, isComplete, isFailed.
  destruct (String.eqb (batchv1.Status c) corev1.ConditionTrue); simpl;
    [| exact IH].
  destruct (String.eqb (batchv1.Type_ c) batchv1.JobComplete) eqn:Hc; simpl.
  - rewrite Hc. reflexivity.
  - destruct (String.eqb (batchv1.Type_ c) batchv1.JobFailed); simpl.
    + rewrite Hc. reflexivity.
    + exact IH.
Qed.

(** One attempt is a lookup followed by a decision on its answer. *)
Lemma attempt_after_lookup (conn : Clientset Remote) (ns name : string)
  (w : World Remote) (r : batchv1.Job + error) (rem : Remote) :
  JobsGet conn ns name (remote w) = (r, rem) ->
  retryUntilJobV1IsFinished conn ns name w =
  (match r with
   | inr err =>
       if isStatusNotFound err then None else retry.NonRetryableError err
   | inl job =>
       scanConditions ns name (batchv1.Conditions (batchv1.JobStatus_ job))
   end, afterGet w ns name rem).
Proof.
  intros Hget. unfold retryUntilJobV1IsFinished, bind, Get, afterGet.
  rewrite Hget. destruct r as [job | err]; [reflexivity |].
  destruct (isStatusNotFound err); reflexivity.
Qed.

(** C4: on a fetched job one attempt of the poller looks only at the
    conditions whose status is true, in list order.  If the first true
    condition of type Complete or Failed is Complete the attempt answers nil
    (done); if it is Failed the attempt answers a non-retryable error that
    names the job as failed; if there is none the attempt answers a retryable
    error, not yet complete. *)
Theorem poll_attempt_on_fetched_job (conn : Clientset Remote) (ns name : string)
  (w : World Remote) (job : batchv1.Job) (rem : Remote) :
  JobsGet conn ns name (remote w) = (inl job, rem) ->
  let cs := batchv1.Conditions (batchv1.JobStatus_ job) in
  let attempt := retryUntilJobV1IsFinished conn ns name w in
  snd attempt = afterGet w ns name rem
  /\ fst attempt = scanConditions ns name (List.filter isTrue cs)
  /\ (forall pre c post,
        cs = (pre ++ c :: post)%list ->
        forallb (fun x => negb (terminal x)) pre = true ->
        isTrue c = true -> isComplete c = true ->
        fst attempt = None)
  /\ (forall pre c post,
        cs = (pre ++ c :: post)%list ->
        forallb (fun x => negb (terminal x)) pre = true ->
        isTrue c = true -> isFailed c = true ->
        fst attempt = retry.NonRetryableError (failedState ns name))
  /\ (forallb (fun x => negb (terminal x)) cs = true ->
      fst attempt = retry.RetryableError (notComplete ns name)).
Proof.
  intros Hget cs attempt. subst attempt.
  rewrite (attempt_after_lookup conn ns name w _ rem Hget). simpl. fold cs.
  split; [reflexivity |].
  split; [apply scan_filter_true |].
  split; [| split].
  - intros pre c post Hcs Hpre Htrue Hcomplete. rewrite Hcs.
    rewrite (scan_skip_prefix ns name pre (c :: post) Hpre). simpl.
    unfold isTrue in Htrue. unfold isComplete in Hcomplete.
    rewrite Htrue, Hcomplete. reflexivity.
  - intros pre c post Hcs Hpre Htrue Hfailed. rewrite Hcs.
    rewrite (scan_skip_prefix ns name pre (c :: post) Hpre). simpl.
    unfold isTrue in Htrue. unfold isFailed in Hfailed.
    rewrite Htrue, Hfailed.
    apply String.eqb_eq in Hfailed. rewrite Hfailed. reflexivity.
  - intros Hnone.
    rewrite <- (app_nil_r cs).
    apply (scan_skip_prefix ns name cs [] Hnone).
Qed.

(** C5: an attempt whose fetch fails with a not-found status error answers
    nil, and the retry loop that made the attempt ends there with no error;
    an attempt whose fetch fails with any other error answers that error as
    non-retryable, and the retry loop ends there with that error. *)
Theorem poll_attempt_on_fetch_error (conn : Clientset Remote) (ns name : string)
  (w : World Remote) (err : error) (rem : Remote) :
  JobsGet conn ns name (remote w) = (inr err, rem) ->
  let poller := retryUntilJobV1IsFinished conn ns name in
  (isStatusNotFound err = true ->
   poller w = (None, afterGet w ns name rem)
   /\ forall n last,
        retry.retryLoop (S n) last poller w = (None, afterGet w ns name rem))
  /\ (isStatusNotFound err = false ->
      poller w = (retry.NonRetryableError err, afterGet w ns name rem)
      /\ forall n last,
           retry.retryLoop (S n) last poller w
           = (Some err, afterGet w ns name rem)).
Proof.
  intros Hget poller. subst poller.
  pose proof (attempt_after_lookup conn ns name w _ rem Hget) as Hrun.
  simpl in Hrun.
  split; intros Hnf; rewrite Hnf in Hrun; (split; [exact Hrun |]);
    intros n last; simpl; unfold bind; rewrite Hrun; reflexivity.
Qed.

End Poller.

(** C4 at a concrete input: a false Failed condition, then a true Complete
    one. *)
Lemma poll_attempt_on_fetched_job_witness :
  fst (retryUntilJobV1IsFinished fake.clientset "prod" "batch-job-7"
         (fake.worldWith
            (fake.jobWith [fake.condition "Failed" "False";
                           fake.condition "Complete" "True"])))
  = None.
Proof.
  pose proof (poll_attempt_on_fetched_job fake.clientset "prod" "batch-job-7"
                (fake.worldWith
                   (fake.jobWith [fake.condition "Failed" "False";
                                  fake.condition "Complete" "True"]))
                (fake.jobWith [fake.condition "Failed" "False";
                               fake.condition "Complete" "True"])
                (remote (fake.worldWith
                   (fake.jobWith [fake.condition "Failed" "False";
                                  fake.condition "Complete" "True"])))) as H.
  at_input H. destruct H as [_ [_ [H _]]].
  specialize (H [fake.condition "Failed" "False"]
                (fake.condition "Complete" "True") []).
  at_input H. exact H.
Defined.

(** C5 at a concrete input: polling a job that is not in the cluster. *)
Lemma poll_attempt_on_fetch_error_witness :
  retryUntilJobV1IsFinished fake.clientset "prod" "batch-job-7" fake.emptyWorld
  = (None, afterGet fake.emptyWorld "prod" "batch-job-7" ∅).
Proof.
  pose proof (poll_attempt_on_fetch_error fake.clientset "prod" "batch-job-7"
                fake.emptyWorld (apierrors.NewNotFound "batch-job-7") ∅) as H.
  at_input H. destruct H as [H _].
  at_input H. exact (proj1 H).
Defined.

(** ** Update, delete and the existence check *)

Section Operations.

Context {Remote : Type} `{Helpers Remote}.

Local Abbreviation update := resourceKubernetesJobV1Update.
Local Abbreviation delete_ := resourceKubernetesJobV1Delete.
Local Abbreviation exists_ := resourceKubernetesJobV1Exists.

(** A configuration without the TTL attribute reads as the empty string. *)
Lemma ttlStr_unset (d : ResourceData.t) :
  ResourceData.attrs d !! ttlKey = None -> ttlStr d = EmptyString.
Proof.
  intros Hnone. unfold ttlStr, ResourceData.Get. rewrite Hnone. reflexivity.
Qed.

(** The TTL is negative only if the recorded string parses, to a negative
    integer. *)
Lemma ttlInt_negative (d : ResourceData.t) :
  ttlInt d < 0 <-> exists n, strconv.Atoi (ttlStr d) = inl n /\ n < 0.
Proof.
  unfold ttlInt. split.
  - destruct (strconv.Atoi (ttlStr d)) as [n | e]; intros Hneg; [| lia].
    exists n. split; [reflexivity | exact Hneg].
  - intros [n [Hparse Hneg]]. rewrite Hparse. exact Hneg.
Qed.

(** The update of a job whose lookup fails with not-found. *)
Lemma update_missing (d : ResourceData.t) (meta : KubeClientsets Remote)
  (conn : Clientset Remote) (ns name : string) (w : World Remote)
  (err : error) (rem : Remote) :
  MainClientset meta = inl conn ->
  idParts (ResourceData.Id d) = inl (ns, name) ->
  JobsGet conn ns name (remote w) = (inr err, rem) ->
  apierrors.IsNotFound err = true ->
  update d meta w =
  (if ttlInt d >=? 0 then ([], d) else (diag.Errorf (deletedMessage d), d),
   afterGet w ns name rem).
Proof.
  intros Hconn Hparts Hget Hnf.
  unfold resourceKubernetesJobV1Update. rewrite Hconn, Hparts.
  unfold bind, Get, afterGet. rewrite Hget, Hnf.
  destruct (ttlInt d >=? 0); reflexivity.
Qed.

(** C6: when the lookup that opens the update fails with not-found, a
    recorded TTL that is not negative makes the update return no diagnostics,
    the configuration untouched and no remote call but the lookup; a negative
    one makes it return the error that the job has been deleted. *)
Theorem update_missing_job (d : ResourceData.t) (meta : KubeClientsets Remote)
  (conn : Clientset Remote) (ns name : string) (w : World Remote)
  (err : error) (rem : Remote) :
  MainClientset meta = inl conn ->
  idParts (ResourceData.Id d) = inl (ns, name) ->
  JobsGet conn ns name (remote w) = (inr err, rem) ->
  apierrors.IsNotFound err = true ->
  (0 <= ttlInt d -> update d meta w = (([], d), afterGet w ns name rem))
  /\ (ttlInt d < 0 ->
      update d meta w
      = ((diag.Errorf (deletedMessage d), d), afterGet w ns name rem)
      /\ diag.HasError (diag.Errorf (deletedMessage d)) = true).
Proof.
  intros Hconn Hparts Hget Hnf.
  rewrite (update_missing d meta conn ns name w err rem Hconn Hparts Hget Hnf).
  split; intros Httl.
  - apply Z.geb_le in Httl. rewrite Httl. reflexivity.
  - destruct (Z.geb_spec (ttlInt d) 0) as [Hge | _]; [lia |].
    split; reflexivity.
Qed.

(** C9: when the lookup that opens the update fails with not-found, the
    update returns the error that the job has been deleted exactly when the
    recorded TTL string parses to a negative integer; with no TTL recorded,
    an empty one, or one that does not parse, it returns no diagnostics. *)
Theorem update_missing_error_needs_negative_ttl
  (d : ResourceData.t) (meta : KubeClientsets Remote)
  (conn : Clientset Remote) (ns name : string) (w : World Remote)
  (err : error) (rem : Remote) :
  MainClientset meta = inl conn ->
  idParts (ResourceData.Id d) = inl (ns, name) ->
  JobsGet conn ns name (remote w) = (inr err, rem) ->
  apierrors.IsNotFound err = true ->
  (fst (update d meta w) = (diag.Errorf (deletedMessage d), d)
   <-> exists n, strconv.Atoi (ttlStr d) = inl n /\ n < 0)
  /\ (ResourceData.attrs d !! ttlKey = None \/ ttlStr d = EmptyString ->
      update d meta w = (([], d), afterGet w ns name rem))
  /\ (forall e, strconv.Atoi (ttlStr d) = inr e ->
      update d meta w = (([], d), afterGet w ns name rem)).
Proof.
  intros Hconn Hparts Hget Hnf.
  rewrite (update_missing d meta conn ns name w err rem Hconn Hparts Hget Hnf).
  split; [| split].
  - rewrite <- ttlInt_negative. simpl.
    destruct (Z.geb_spec (ttlInt d) 0) as [Hge | Hlt].
    + split; [discriminate | lia].
    + split; [intros _; exact Hlt | reflexivity].
  - intros Hunset.
    assert (Hempty : ttlStr d = EmptyString).
    { destruct Hunset as [Hnone | Hempty];
        [apply ttlStr_unset; exact Hnone | exact Hempty]. }
    unfold ttlInt. rewrite Hempty. reflexivity.
  - intros e Hparse. unfold ttlInt. rewrite Hparse. reflexivity.
Qed.

(** The delete of a job whose deletion the cluster answers with an error. *)
Lemma delete_refused (d : ResourceData.t) (meta : KubeClientsets Remote)
  (conn : Clientset Remote) (ns name : string) (w : World Remote)
  (err : error) (rem : Remote) :
  MainClientset meta = inl conn ->
  idParts (ResourceData.Id d) = inl (ns, name) ->
  JobsDelete conn ns name (remote w) = (Some err, rem) ->
  delete_ d meta w =
  (if isStatusNotFound err then ([], d)
   else (diag.Errorf ("Failed to delete Job! API error: " +:+ Error err), d),
   afterDelete w ns name rem).
Proof.
  intros Hconn Hparts Hdel.
  unfold resourceKubernetesJobV1Delete. rewrite Hconn, Hparts.
  unfold bind, Delete, afterDelete. rewrite Hdel.
  destruct (isStatusNotFound err); reflexivity.
Qed.

(** C7: a delete of an absent job returns no diagnostics after its one
    remote call, and leaves the configuration as it was; if the job is still
    absent, a second delete in succession returns no diagnostics again. *)
Theorem delete_absent_idempotent (d : ResourceData.t)
  (meta : KubeClientsets Remote) (conn : Clientset Remote) (ns name : string)
  (w : World Remote) :
  MainClientset meta = inl conn ->
  idParts (ResourceData.Id d) = inl (ns, name) ->
  absent conn ns name (remote w) ->
  let first := delete_ d meta w in
  fst first = ([], d)
  /\ calls (snd first) = (calls w ++ [CallDelete ns name])%list
  /\ (absent conn ns name (remote (snd first)) ->
      let second := delete_ (snd (fst first)) meta (snd first) in
      fst second = ([], d)
      /\ calls (snd second)
         = (calls w ++ [CallDelete ns name; CallDelete ns name])%list).
Proof.
  intros Hconn Hparts [err [rem [Hdel Hnf]]]. simpl.
  rewrite (delete_refused d meta conn ns name w err rem Hconn Hparts Hdel).
  rewrite Hnf. simpl.
  split; [reflexivity |]. split; [reflexivity |].
  intros [err2 [rem2 [Hdel2 Hnf2]]].
  rewrite (delete_refused d meta conn ns name (afterDelete w ns name rem)
             err2 rem2 Hconn Hparts Hdel2).
  rewrite Hnf2. simpl.
  split; [reflexivity |]. rewrite <- app_assoc. reflexivity.
Qed.

(** C10: the existence check answers false with no error exactly when the
    lookup fails with a not-found status error; when the lookup fails with
    any other error it answers true together with that error. *)
Theorem exists_false_iff_not_found (d : ResourceData.t)
  (meta : KubeClientsets Remote) (w : World Remote) :
  (fst (exists_ d meta w) = (false, None)
   <-> exists conn ns name err rem,
         MainClientset meta = inl conn
         /\ idParts (ResourceData.Id d) = inl (ns, name)
         /\ JobsGet conn ns name (remote w) = (inr err, rem)
         /\ isStatusNotFound err = true)
  /\ (forall conn ns name err rem,
        MainClientset meta = inl conn ->
        idParts (ResourceData.Id d) = inl (ns, name) ->
        JobsGet conn ns name (remote w) = (inr err, rem) ->
        isStatusNotFound err = false ->
        fst (exists_ d meta w) = (true, Some err)).
Proof.
  unfold resourceKubernetesJobV1Exists. split.
  - split.
    + destruct (MainClientset meta) as [conn | e]; [| discriminate].
      destruct (idParts (ResourceData.Id d)) as [[ns name] | e];
        [| discriminate].
      unfold bind, Get.
      destruct (JobsGet conn ns name (remote w)) as [[job | err] rem] eqn:Hget;
        [discriminate |].
      destruct (isStatusNotFound err) eqn:Hnf; [| discriminate].
      intros _. exists conn, ns, name, err, rem. repeat split; assumption.
    + intros [conn [ns [name [err [rem [Hconn [Hparts [Hget Hnf]]]]]]]].
      rewrite Hconn, Hparts. unfold bind, Get. rewrite Hget, Hnf. reflexivity.
  - intros conn ns name err rem Hconn Hparts Hget Hnf.
    rewrite Hconn, Hparts. unfold bind, Get. rewrite Hget, Hnf. reflexivity.
Qed.

End Operations.

(** In the in-memory cluster a job that is not stored is absent, and a
    delete leaves it so. *)
Lemma fake_absent (c : fake.Cluster) (ns name : string) :
  c !! (ns, name) = None -> absent fake.clientset ns name c.
Proof.
  intros Hnone. exists (apierrors.NewNotFound name), c.
  simpl. rewrite Hnone. split; reflexivity.
Qed.

(** C6 at a concrete input: the job is gone and the recorded TTL is 30. *)
Lemma update_missing_job_witness :
  resourceKubernetesJobV1Update
    (fake.dataOf (Some (IString "30"))) fake.meta fake.emptyWorld
  = (([], fake.dataOf (Some (IString "30"))),
     afterGet fake.emptyWorld "prod" "batch-job-7" ∅).
Proof.
  pose proof (update_missing_job (fake.dataOf (Some (IString "30"))) fake.meta fake.clientset
                "prod" "batch-job-7" fake.emptyWorld
                (apierrors.NewNotFound "batch-job-7") ∅) as H.
  at_input H. destruct H as [H _].
  at_input H. exact H.
Defined.

(** The other branch of C6: the job is gone and the recorded TTL is -1. *)
Example update_missing_job_negative_ttl :
  fst (resourceKubernetesJobV1Update
         (fake.dataOf (Some (IString "-1"))) fake.meta fake.emptyWorld)
  = (diag.Errorf
       "Job prod,batch-job-7 not found; cannot update because it has been deleted",
     fake.dataOf (Some (IString "-1"))).
Proof. by_evaluation. Qed.

(** C9 at a concrete input: the job is gone and no TTL is recorded. *)
Lemma update_missing_error_needs_negative_ttl_witness :
  resourceKubernetesJobV1Update
    (fake.dataOf None) fake.meta fake.emptyWorld
  = (([], fake.dataOf None), afterGet fake.emptyWorld "prod" "batch-job-7" ∅).
Proof.
  pose proof (update_missing_error_needs_negative_ttl (fake.dataOf None) fake.meta fake.clientset
                "prod" "batch-job-7" fake.emptyWorld
                (apierrors.NewNotFound "batch-job-7") ∅) as H.
  at_input H. destruct H as [_ [H _]].
  apply H. left. reflexivity.
Defined.

(** C7 at a concrete input: two deletes in succession on an empty cluster. *)
Lemma delete_absent_idempotent_witness :
  fst (resourceKubernetesJobV1Delete (fake.dataOf None) fake.meta fake.emptyWorld)
  = ([], fake.dataOf None)
  /\ fst (resourceKubernetesJobV1Delete
            (snd (fst (resourceKubernetesJobV1Delete (fake.dataOf None)
                         fake.meta fake.emptyWorld)))
            fake.meta
            (snd (resourceKubernetesJobV1Delete (fake.dataOf None)
                    fake.meta fake.emptyWorld)))
     = ([], fake.dataOf None).
Proof.
  pose proof (delete_absent_idempotent (fake.dataOf None)
                fake.meta fake.clientset "prod" "batch-job-7"
                fake.emptyWorld) as H.
  at_input H.
  specialize (H (fake_absent ∅ "prod" "batch-job-7" eq_refl)).
  cbv zeta in H. destruct H as [Hfirst [_ Hsecond]].
  cbv zeta. split; [exact Hfirst |].
  destruct Hsecond as [Hsecond _]; [| exact Hsecond].
  exists (apierrors.NewNotFound "batch-job-7"), ∅. split; reflexivity.
Defined.

(** C10 at concrete inputs: a job that is not in the cluster, and a client
    whose transport fails. *)
Lemma exists_false_iff_not_found_witness :
  fst (resourceKubernetesJobV1Exists (fake.dataOf None)
         fake.meta fake.emptyWorld) = (false, None)
  /\ fst (resourceKubernetesJobV1Exists (fake.dataOf None)
            fake.brokenMeta fake.emptyWorld) = (true, Some fake.refused).
Proof.
  split.
  - apply (proj1 (exists_false_iff_not_found (fake.dataOf None)
                    fake.meta fake.emptyWorld)).
    exists fake.clientset, "prod", "batch-job-7",
      (apierrors.NewNotFound "batch-job-7"), ∅.
    repeat split; reflexivity.
  - pose proof (proj2 (exists_false_iff_not_found (fake.dataOf None)
                         fake.brokenMeta fake.emptyWorld)
                  fake.brokenClientset "prod" "batch-job-7" fake.refused ∅) as H.
    at_input H. exact H.
Defined.

(** ** The operations on the in-memory cluster *)

(** Deleting a stored job: the delete call, then one confirming lookup; the
    identifier is dropped. *)
Example delete_stored_job :
  resourceKubernetesJobV1Delete (fake.dataOf None) fake.meta
    (fake.worldWith (fake.jobWith []))
  = (([], ResourceData.SetId EmptyString (fake.dataOf None)),
     {| remote := delete ("prod", "batch-job-7") (remote (fake.worldWith (fake.jobWith [])));
        calls := [CallDelete "prod" "batch-job-7"; CallGet "prod" "batch-job-7"] |}).
Proof. vm_compute. reflexivity. Qed.

(** Updating a stored, completed job: lookup, patch, one attempt of the
    poller, and the two lookups of the read. *)
Example update_stored_job :
  calls (snd (resourceKubernetesJobV1Update (fake.dataOf (Some (IString "30")))
                fake.meta
                (fake.worldWith (fake.jobWith [fake.condition "Complete" "True"]))))
  = [CallGet "prod" "batch-job-7"; CallPatch "prod" "batch-job-7";
     CallGet "prod" "batch-job-7"; CallGet "prod" "batch-job-7";
     CallGet "prod" "batch-job-7"].
Proof. vm_compute. reflexivity. Qed.

(** Creating a job that never completes: the wait uses up its attempts and
    the create fails with the last retryable error. *)
Example create_times_out :
  fst (fst (resourceKubernetesJobV1Create (fake.dataOf None) fake.meta fake.emptyWorld))
  = diag.FromErr (Some (notComplete "prod" "batch-job-7")).
Proof. vm_compute. reflexivity. Qed.

(** Reading a job that is gone: with a TTL recorded the identifier stays,
    without one it is dropped. *)
Example read_missing_job :
  fst (resourceKubernetesJobV1Read (fake.dataOf (Some (IString "30"))) fake.meta
         fake.emptyWorld)
  = ([], fake.dataOf (Some (IString "30")))
  /\ fst (resourceKubernetesJobV1Read (fake.dataOf None) fake.meta fake.emptyWorld)
     = ([], ResourceData.SetId EmptyString (fake.dataOf None)).
Proof. split; vm_compute; reflexivity. Qed.

(** ** More on the CustomizeDiff rule *)

(** Splits a goal along the branches the code takes. *)
Ltac along_branches :=
  repeat match goal with
         | |- context [match ?x with _ => _ end] => destruct x eqn:?
         end.

Section DiffRuleAll.

Context {Remote : Type} `{Helpers Remote}.

Local Abbreviation rule := resourceKubernetesJobV1CustomizeDiff.

(** X1: whatever the cluster answers, the rule hands back the diff it was
    given, or that diff with [ForceNew] on the TTL field, or that diff with
    [spec] and [metadata] cleared; the last two only with no error.  So an
    error never comes with a changed diff, and nothing is both forced and
    cleared. *)
Theorem diff_result_shape (d : ResourceDiff.t) (meta : KubeClientsets Remote)
  (w : World Remote) :
  snd (fst (rule d meta w)) = d
  \/ (fst (fst (rule d meta w)) = None
      /\ snd (fst (rule d meta w)) = ResourceDiff.ForceNew ttlKey d)
  \/ (fst (fst (rule d meta w)) = None
      /\ snd (fst (rule d meta w))
         = ResourceDiff.Clear "metadata" (ResourceDiff.Clear "spec" d)).
Proof.
  unfold resourceKubernetesJobV1CustomizeDiff, bind, Get, ret.
  along_branches; simpl; auto.
Qed.

(** X2: the rule calls [ForceNew] only if the old and the new TTL differ, and
    clears only if they are equal, the old one is not negative and the lookup
    of the job failed with not-found. *)
Theorem diff_changes_only_if (d : ResourceDiff.t) (meta : KubeClientsets Remote)
  (w : World Remote) :
  (ResourceDiff.forcedNewKeys (snd (fst (rule d meta w)))
   <> ResourceDiff.forcedNewKeys d ->
   oldTTLInt d <> newTTLInt d)
  /\ (ResourceDiff.clearedKeys (snd (fst (rule d meta w)))
      <> ResourceDiff.clearedKeys d ->
      oldTTLInt d = newTTLInt d /\ 0 <= oldTTLInt d
      /\ exists conn ns name err rem,
           MainClientset meta = inl conn
           /\ idParts (ResourceDiff.Id d) = inl (ns, name)
           /\ JobsGet conn ns name (remote w) = (inr err, rem)
           /\ apierrors.IsNotFound err = true).
Proof.
  unfold resourceKubernetesJobV1CustomizeDiff, bind, Get, ret.
  destruct (String.eqb (ResourceDiff.Id d) EmptyString);
    [simpl; split; intros Hc; contradiction |].
  destruct (MainClientset meta) as [conn | e];
    [| simpl; split; intros Hc; contradiction].
  destruct (idParts (ResourceDiff.Id d)) as [[ns name] | e];
    [| simpl; split; intros Hc; contradiction].
  destruct (JobsGet conn ns name (remote w)) as [[job | err] rem] eqn:Hget.
  - destruct (Z.eqb_spec (oldTTLInt d) (newTTLInt d)) as [Heq | Hne]; simpl;
      split; intros Hc; try contradiction; exact Hne.
  - destruct (apierrors.IsNotFound err) eqn:Hnf;
      [| simpl; split; intros Hc; contradiction].
    destruct (Z.geb_spec (oldTTLInt d) 0) as [Hge | Hlt];
      [| simpl; split; intros Hc; contradiction].
    destruct (Z.eqb_spec (oldTTLInt d) (newTTLInt d)) as [Heq | Hne]; simpl;
      split; intros Hc; try contradiction; try exact Hne.
    split; [exact Heq |]. split; [lia |].
    exists conn, ns, name, err, rem. repeat split; assumption.
Qed.

(** X3: the rule makes no remote call when no identifier is recorded, and
    otherwise at most one, a lookup of the job the identifier decodes to. *)
Theorem diff_calls (d : ResourceDiff.t) (meta : KubeClientsets Remote)
  (w : World Remote) :
  (ResourceDiff.Id d = EmptyString -> snd (rule d meta w) = w)
  /\ (snd (rule d meta w) = w
      \/ exists conn ns name,
           MainClientset meta = inl conn
           /\ idParts (ResourceDiff.Id d) = inl (ns, name)
           /\ snd (rule d meta w)
              = afterGet w ns name (snd (JobsGet conn ns name (remote w)))).
Proof.
  split.
  - intros Hid. rewrite (rule_not_created d meta w Hid). reflexivity.
  - unfold resourceKubernetesJobV1CustomizeDiff, bind, Get, ret, afterGet.
    destruct (String.eqb (ResourceDiff.Id d) EmptyString); [left; reflexivity |].
    destruct (MainClientset meta) as [conn | e]; [| left; reflexivity].
    destruct (idParts (ResourceDiff.Id d)) as [[ns name] | e];
      [| left; reflexivity].
    right. exists conn, ns, name.
    split; [reflexivity |]. split; [reflexivity |].
    destruct (JobsGet conn ns name (remote w)) as [r rem]. simpl.
    along_branches; reflexivity.
Qed.

(** X4: the rule returns an error exactly when, with an identifier recorded,
    the client is not available, or the identifier does not decode, or the
    lookup fails with an error other than not-found; the error returned is the
    one that occurred. *)
Theorem diff_error_iff (d : ResourceDiff.t) (meta : KubeClientsets Remote)
  (w : World Remote) (e : error) :
  fst (fst (rule d meta w)) = Some e
  <-> ResourceDiff.Id d <> EmptyString
      /\ (MainClientset meta = inr e
          \/ exists conn,
               MainClientset meta = inl conn
               /\ (idParts (ResourceDiff.Id d) = inr e
                   \/ exists ns name rem,
                        idParts (ResourceDiff.Id d) = inl (ns, name)
                        /\ JobsGet conn ns name (remote w) = (inr e, rem)
                        /\ apierrors.IsNotFound e = false)).
Proof.
  unfold resourceKubernetesJobV1CustomizeDiff, bind, Get, ret.
  destruct (String.eqb_spec (ResourceDiff.Id d) EmptyString) as [Hid | Hid].
  { simpl. split; [discriminate | intros [Hc _]; contradiction]. }
  destruct (MainClientset meta) as [conn | e0].
  2:{ simpl. split.
      - intros Heq. injection Heq as <-. split; [exact Hid | left; reflexivity].
      - intros [_ [Heq | [conn [Hc _]]]]; [| discriminate].
        injection Heq as <-. reflexivity. }
  destruct (idParts (ResourceDiff.Id d)) as [[ns name] | e0].
  2:{ simpl. split.
      - intros Heq. injection Heq as <-. split; [exact Hid |].
        right. exists conn. split; [reflexivity | left; reflexivity].
      - intros [_ [Hc | [conn' [_ [Heq | [ns [name [rem [Hc _]]]]]]]]];
          try discriminate.
        injection Heq as <-. reflexivity. }
  destruct (JobsGet conn ns name (remote w)) as [[job | err] rem] eqn:Hget.
  - split.
    + destruct (negb _); simpl; discriminate.
    + intros [_ [Hc | [conn' [Hconn [Hc | [ns' [name' [rem' [Hparts [Hget' _]]]]]]]]]];
        try discriminate.
      injection Hconn as <-. injection Hparts as <- <-.
      rewrite Hget in Hget'. discriminate.
  - split.
    + destruct (apierrors.IsNotFound err) eqn:Hnf.
      * destruct (oldTTLInt d >=? 0); [destruct (negb _) |]; simpl; discriminate.
      * simpl. intros Heq. injection Heq as <-. split; [exact Hid |].
        right. exists conn. split; [reflexivity |]. right.
        exists ns, name, rem. repeat split; assumption.
    + intros [_ [Hc | [conn' [Hconn [Hc | [ns' [name' [rem' [Hparts [Hget' Hnf]]]]]]]]]];
        try discriminate.
      injection Hconn as <-. injection Hparts as <- <-.
      rewrite Hget in Hget'. injection Hget' as <- <-.
      rewrite Hnf. reflexivity.
Qed.

End DiffRuleAll.

(** ** The existence check and the read *)

Section ReadAll.

Context {Remote : Type} `{Helpers Remote}.

Local Abbreviation exists_ := resourceKubernetesJobV1Exists.
Local Abbreviation read := resourceKubernetesJobV1Read.

(** The existence check is one lookup and a decision on its answer. *)
Lemma exists_after_lookup (d : ResourceData.t) (meta : KubeClientsets Remote)
  (conn : Clientset Remote) (ns name : string) (w : World Remote)
  (r : batchv1.Job + error) (rem : Remote) :
  MainClientset meta = inl conn ->
  idParts (ResourceData.Id d) = inl (ns, name) ->
  JobsGet conn ns name (remote w) = (r, rem) ->
  exists_ d meta w =
  (match r with
   | inr err => if isStatusNotFound err then (false, None) else (true, Some err)
   | inl _ => (true, None)
   end, afterGet w ns name rem).
Proof.
  intros Hconn Hparts Hget. unfold resourceKubernetesJobV1Exists.
  rewrite Hconn, Hparts. unfold bind, Get, afterGet. rewrite Hget.
  destruct r as [job | err]; [reflexivity |].
  destruct (isStatusNotFound err); reflexivity.
Qed.

(** X5: the existence check answers true with no error exactly when the
    lookup finds the job.  When it returns an error, either it answers false
    and has made no remote call (no client, or an identifier that does not
    decode), or it answers true and the error is that of the lookup. *)
Theorem exists_true_iff_found (d : ResourceData.t)
  (meta : KubeClientsets Remote) (w : World Remote) :
  (fst (exists_ d meta w) = (true, None)
   <-> exists conn ns name job rem,
         MainClientset meta = inl conn
         /\ idParts (ResourceData.Id d) = inl (ns, name)
         /\ JobsGet conn ns name (remote w) = (inl job, rem))
  /\ (forall e,
        snd (fst (exists_ d meta w)) = Some e ->
        (fst (fst (exists_ d meta w)) = false /\ snd (exists_ d meta w) = w
         /\ (MainClientset meta = inr e
             \/ idParts (ResourceData.Id d) = inr e))
        \/ (fst (fst (exists_ d meta w)) = true
            /\ exists conn ns name rem,
                 MainClientset meta = inl conn
                 /\ idParts (ResourceData.Id d) = inl (ns, name)
                 /\ JobsGet conn ns name (remote w) = (inr e, rem)
                 /\ isStatusNotFound e = false)).
Proof.
  destruct (MainClientset meta) as [conn | e0] eqn:Hconn.
  2:{ unfold resourceKubernetesJobV1Exists. rewrite Hconn. simpl. split.
      - split; [discriminate | intros [c [ns [name [job [rem [Hc _]]]]]]; discriminate].
      - intros e He. injection He as <-. left. auto. }
  destruct (idParts (ResourceData.Id d)) as [[ns name] | e0] eqn:Hparts.
  2:{ unfold resourceKubernetesJobV1Exists. rewrite Hconn, Hparts. simpl. split.
      - split; [discriminate |].
        intros [c [ns [name [job [rem [_ [Hc _]]]]]]]; discriminate.
      - intros e He. injection He as <-. left. auto. }
  destruct (JobsGet conn ns name (remote w)) as [r rem] eqn:Hget.
  rewrite (exists_after_lookup d meta conn ns name w r rem Hconn Hparts Hget).
  destruct r as [job | err]; simpl.
  - split.
    + split; [intros _; exists conn, ns, name, job, rem; auto | reflexivity].
    + intros e He. discriminate.
  - destruct (isStatusNotFound err) eqn:Hnf; simpl; split.
    + split; [discriminate |].
      intros [c [ns' [name' [job [rem' [Hc [Hp Hg]]]]]]].
      injection Hc as <-. injection Hp as <- <-.
      rewrite Hget in Hg. discriminate.
    + intros e He. discriminate.
    + split; [discriminate |].
      intros [c [ns' [name' [job [rem' [Hc [Hp Hg]]]]]]].
      injection Hc as <-. injection Hp as <- <-.
      rewrite Hget in Hg. discriminate.
    + intros e He. injection He as <-. right. split; [reflexivity |].
      exists conn, ns, name, rem. auto.
Qed.

(** X6: reading a job whose lookup fails with a not-found status error
    returns no diagnostics after that one lookup; the identifier is kept when
    a TTL is set in the configuration and dropped when none is. *)
Theorem read_vanished_job (d : ResourceData.t) (meta : KubeClientsets Remote)
  (conn : Clientset Remote) (ns name : string) (w : World Remote)
  (err : error) (rem : Remote) :
  MainClientset meta = inl conn ->
  idParts (ResourceData.Id d) = inl (ns, name) ->
  JobsGet conn ns name (remote w) = (inr err, rem) ->
  isStatusNotFound err = true ->
  (ResourceData.isZero (ResourceData.Get d ttlKey) = false ->
   read d meta w = (([], d), afterGet w ns name rem))
  /\ (ResourceData.isZero (ResourceData.Get d ttlKey) = true ->
      read d meta w
      = (([], ResourceData.SetId EmptyString d), afterGet w ns name rem)).
Proof.
  intros Hconn Hparts Hget Hnf.
  unfold resourceKubernetesJobV1Read, bind.
  rewrite (exists_after_lookup d meta conn ns name w _ rem Hconn Hparts Hget).
  rewrite Hnf. simpl. unfold ret.
  split; intros Hzero; rewrite Hzero; reflexivity.
Qed.

(** The read when the second lookup fails. *)
Lemma read_second_lookup_fails (d : ResourceData.t)
  (meta : KubeClientsets Remote) (conn : Clientset Remote) (ns name : string)
  (w : World Remote) (job : batchv1.Job) (err : error) (r1 r2 : Remote) :
  MainClientset meta = inl conn ->
  idParts (ResourceData.Id d) = inl (ns, name) ->
  JobsGet conn ns name (remote w) = (inl job, r1) ->
  JobsGet conn ns name r1 = (inr err, r2) ->
  read d meta w
  = ((diag.Errorf ("Failed to read Job! API error: " +:+ Error err), d),
     afterGet (afterGet w ns name r1) ns name r2).
Proof.
  intros Hconn Hparts Hget1 Hget2.
  unfold resourceKubernetesJobV1Read, bind.
  rewrite (exists_after_lookup d meta conn ns name w _ r1 Hconn Hparts Hget1).
  simpl. rewrite Hconn, Hparts. unfold bind, Get, afterGet. simpl.
  rewrite Hget2. reflexivity.
Qed.

(** X7: when the existence check finds the job and the lookup that follows
    fails, for whatever reason, not-found included, the read returns the
    error that the job could not be read and leaves the configuration as it
    was. *)
Theorem read_job_lost_between_lookups (d : ResourceData.t)
  (meta : KubeClientsets Remote) (conn : Clientset Remote) (ns name : string)
  (w : World Remote) (job : batchv1.Job) (err : error) (r1 r2 : Remote) :
  MainClientset meta = inl conn ->
  idParts (ResourceData.Id d) = inl (ns, name) ->
  JobsGet conn ns name (remote w) = (inl job, r1) ->
  JobsGet conn ns name r1 = (inr err, r2) ->
  read d meta w
  = ((diag.Errorf ("Failed to read Job! API error: " +:+ Error err), d),
     afterGet (afterGet w ns name r1) ns name r2).
Proof. exact (read_second_lookup_fails d meta conn ns name w job err r1 r2). Qed.

(** When both lookups find the job, the read flattens the job of the
    second lookup into the configuration and returns what the flattening
    returns. *)
Lemma read_found_job (d : ResourceData.t)
  (meta : KubeClientsets Remote) (conn : Clientset Remote) (ns name : string)
  (w : World Remote) (job1 job2 : batchv1.Job) (r1 r2 : Remote) :
  MainClientset meta = inl conn ->
  idParts (ResourceData.Id d) = inl (ns, name) ->
  JobsGet conn ns name (remote w) = (inl job1, r1) ->
  JobsGet conn ns name r1 = (inl job2, r2) ->
  read d meta w
  = ((diag.FromErr (fst (flattenJob job2 d meta)), snd (flattenJob job2 d meta)),
     afterGet (afterGet w ns name r1) ns name r2).
Proof.
  intros Hconn Hparts Hget1 Hget2.
  unfold resourceKubernetesJobV1Read, bind.
  rewrite (exists_after_lookup d meta conn ns name w _ r1 Hconn Hparts Hget1).
  simpl. rewrite Hconn, Hparts. unfold bind, Get, afterGet. simpl.
  rewrite Hget2. destruct (flattenJob job2 d meta) as [e d']. reflexivity.
Qed.

(** The calls of the read and the configuration it returns. *)
Lemma read_calls_and_config (d : ResourceData.t) (meta : KubeClientsets Remote)
  (w : World Remote) :
  (exists l,
     calls (snd (read d meta w)) = (calls w ++ l)%list
     /\ forallb isGet l = true /\ (length l <= 2)%nat)
  /\ (snd (fst (read d meta w)) = d
      \/ (snd (fst (read d meta w)) = ResourceData.SetId EmptyString d
          /\ fst (fst (read d meta w)) = [])
      \/ exists job, snd (fst (read d meta w)) = snd (flattenJob job d meta)).
Proof.
  destruct (MainClientset meta) as [conn | e0] eqn:Hconn.
  2:{ unfold resourceKubernetesJobV1Read, resourceKubernetesJobV1Exists, bind.
      rewrite Hconn. simpl. split; [| left; reflexivity].
      exists []. rewrite app_nil_r. auto. }
  destruct (idParts (ResourceData.Id d)) as [[ns name] | e0] eqn:Hparts.
  2:{ unfold resourceKubernetesJobV1Read, resourceKubernetesJobV1Exists, bind.
      rewrite Hconn, Hparts. simpl. split; [| left; reflexivity].
      exists []. rewrite app_nil_r. auto. }
  destruct (JobsGet conn ns name (remote w)) as [[job1 | err1] r1] eqn:Hget1.
  - destruct (JobsGet conn ns name r1) as [[job2 | err2] r2] eqn:Hget2.
    + rewrite (read_found_job d meta conn ns name w job1 job2 r1 r2
                 Hconn Hparts Hget1 Hget2). simpl.
      split; [| right; right; exists job2; reflexivity].
      exists [CallGet ns name; CallGet ns name].
      rewrite <- app_assoc. auto.
    + rewrite (read_second_lookup_fails d meta conn ns name w job1 err2 r1 r2
                 Hconn Hparts Hget1 Hget2). simpl.
      split; [| left; reflexivity].
      exists [CallGet ns name; CallGet ns name].
      rewrite <- app_assoc. auto.
  - unfold resourceKubernetesJobV1Read, bind.
    rewrite (exists_after_lookup d meta conn ns name w _ r1 Hconn Hparts Hget1).
    destruct (isStatusNotFound err1); simpl.
    + destruct (negb (ResourceData.isZero (ResourceData.Get d ttlKey))); simpl.
      * split; [| left; reflexivity]. exists [CallGet ns name]. auto.
      * split; [| right; left; auto]. exists [CallGet ns name]. auto.
    + split; [| left; reflexivity]. exists [CallGet ns name]. auto.
Qed.


End ReadAll.

(** ** Waiting for a job *)

Section Waiting.

Context {Remote : Type} `{Helpers Remote}.

(** A list with a true Complete or Failed condition has a first one. *)
Lemma find_terminal_some (cs : list batchv1.JobCondition) :
  forallb (fun c => negb (terminal c)) cs = false ->
  exists c, List.find terminal cs = Some c.
Proof.
  induction cs as [| c rest IH]; simpl; [discriminate |].
  destruct (terminal c); simpl; [intros _; exists c; reflexivity | exact IH].
Qed.

(** On a fetched job the attempt asks for a retry exactly when the job is
    unfinished; otherwise it ends as [pollOutcome] says. *)
Lemma scan_outcome (ns name : string) (job : batchv1.Job) :
  scanConditions ns name (batchv1.Conditions (batchv1.JobStatus_ job))
  = if unfinished job then retry.RetryableError (notComplete ns name)
    else match pollOutcome ns name (inl job) with
         | None => None
         | Some e => retry.NonRetryableError e
         end.
Proof.
  unfold unfinished, pollOutcome, finished.
  destruct (forallb _ _) eqn:Hun.
  - rewrite <- (app_nil_r (batchv1.Conditions (batchv1.JobStatus_ job))).
    apply (scan_skip_prefix ns name _ [] Hun).
  - rewrite scan_first_terminal.
    destruct (find_terminal_some _ Hun) as [c Hc]. rewrite Hc.
    destruct (isComplete c); reflexivity.
Qed.

(** One more attempt after a retryable one. *)
Lemma retryLoop_retry (f : retry.RetryFunc Remote) (n : nat) (last : option error)
  (w w1 : World Remote) (e : error) :
  f w = (retry.RetryableError e, w1) ->
  retry.retryLoop (S n) last f w = retry.retryLoop n (Some e) f w1.
Proof. intros Hf. simpl. unfold bind. rewrite Hf. reflexivity. Qed.

(** The loop ends with an attempt that does not ask for a retry. *)
Lemma retryLoop_stop (f : retry.RetryFunc Remote) (n : nat) (last : option error)
  (w w1 : World Remote) (res : option error) :
  f w = (match res with
         | None => None
         | Some e => retry.NonRetryableError e
         end, w1) ->
  retry.retryLoop (S n) last f w = (res, w1).
Proof.
  intros Hf. simpl. unfold bind. rewrite Hf. destruct res; reflexivity.
Qed.

(** The log grows by one and the same call per attempt. *)
Lemma retryLoop_calls (f : retry.RetryFunc Remote) (c : Call) :
  (forall w, calls (snd (f w)) = (calls w ++ [c])%list) ->
  forall n last w,
    exists k, (k <= n)%nat
      /\ calls (snd (retry.retryLoop n last f w)) = (calls w ++ repeat c k)%list.
Proof.
  intros Hlog n. induction n as [| n IH]; intros last w.
  - exists 0%nat. simpl. rewrite app_nil_r. auto.
  - simpl. unfold bind. pose proof (Hlog w) as Hw.
    destruct (f w) as [r w1]. simpl in Hw.
    destruct r as [rerr |]; [destruct (retry.Retryable rerr) |].
    + destruct (IH (Some (retry.Err rerr)) w1) as [k [Hk Hcalls]].
      exists (S k). split; [lia |].
      rewrite Hcalls, Hw, <- app_assoc. reflexivity.
    + exists 1%nat. split; [lia | exact Hw].
    + exists 1%nat. split; [lia | exact Hw].
Qed.

Local Abbreviation poller := retryUntilJobV1IsFinished.

(** The calls of a wait. *)
Lemma wait_calls (conn : Clientset Remote) (ns name : string)
  (n : nat) (w : World Remote) :
  exists k, (k <= n)%nat
    /\ calls (snd (retry.RetryContext n (poller conn ns name) w))
       = (calls w ++ repeat (CallGet ns name) k)%list.
Proof.
  apply retryLoop_calls. intros w0.
  destruct (JobsGet conn ns name (remote w0)) as [r rem] eqn:Hget.
  rewrite (attempt_after_lookup conn ns name w0 r rem Hget). reflexivity.
Qed.

(** X9: a wait of [n] attempts makes at most [n] remote calls, all of them
    lookups of the job waited for. *)
Theorem wait_only_looks_up (conn : Clientset Remote) (ns name : string)
  (n : nat) (w : World Remote) :
  exists k, (k <= n)%nat
    /\ calls (snd (retry.RetryContext n (poller conn ns name) w))
       = (calls w ++ repeat (CallGet ns name) k)%list.
Proof. exact (wait_calls conn ns name n w). Qed.

(** The loop over a run of lookups that find the job unfinished. *)
Lemma wait_through_unfinished (conn : Clientset Remote) (ns name : string)
  (k : nat) :
  forall n last cl r r',
    lookupsFind conn ns name unfinished k r r' ->
    retry.retryLoop (k + n) last (poller conn ns name) {| remote := r; calls := cl |}
    = retry.retryLoop n
        (match k with O => last | S _ => Some (notComplete ns name) end)
        (poller conn ns name)
        {| remote := r'; calls := cl ++ repeat (CallGet ns name) k |}.
Proof.
  induction k as [| k IH]; intros n last cl r r' Hrun; simpl in Hrun.
  - subst r'. simpl. rewrite app_nil_r. reflexivity.
  - destruct Hrun as [job [r1 [Hget [Hun Hrun]]]].
    change (S k + n)%nat with (S (k + n)).
    rewrite (retryLoop_retry _ _ last _
               (afterGet {| remote := r; calls := cl |} ns name r1)
               (notComplete ns name)).
    + unfold afterGet. simpl calls.
      rewrite (IH n (Some (notComplete ns name)) _ r1 r' Hrun).
      rewrite <- app_assoc. simpl. destruct k; reflexivity.
    + rewrite (attempt_after_lookup conn ns name {| remote := r; calls := cl |}
                 (inl job) r1 Hget).
      rewrite scan_outcome, Hun. reflexivity.
Qed.

(** The wait that reaches a settled answer. *)
Lemma wait_settles (conn : Clientset Remote) (ns name : string)
  (k n : nat) (w : World Remote) (r1 r2 : Remote) (ans : batchv1.Job + error) :
  lookupsFind conn ns name unfinished k (remote w) r1 ->
  JobsGet conn ns name r1 = (ans, r2) ->
  settled ans = true ->
  (k < n)%nat ->
  retry.RetryContext n (poller conn ns name) w
  = (pollOutcome ns name ans,
     {| remote := r2; calls := calls w ++ repeat (CallGet ns name) (S k) |}).
Proof.
  intros Hrun Hget Hsettled Hlt.
  unfold retry.RetryContext.
  replace n with (k + S (n - S k))%nat by lia.
  destruct w as [r cl]. simpl in Hrun.
  rewrite (wait_through_unfinished conn ns name k _ None cl r r1 Hrun).
  rewrite (retryLoop_stop _ _ _ _
             {| remote := r2; calls := cl ++ repeat (CallGet ns name) (S k) |}
             (pollOutcome ns name ans)); [reflexivity |].
  rewrite (attempt_after_lookup conn ns name
             {| remote := r1; calls := cl ++ repeat (CallGet ns name) k |}
             ans r2 Hget).
  unfold afterGet. simpl calls.
  replace (S k) with (k + 1)%nat by lia.
  rewrite repeat_app, app_assoc. simpl repeat.
  f_equal. destruct ans as [job | err]; simpl in *.
  - rewrite scan_outcome.
    destruct (unfinished job); [discriminate | reflexivity].
  - destruct (isStatusNotFound err); reflexivity.
Qed.

(** X10: if the first [k] lookups find the job unfinished and the next one
    is settled (the job is gone, or the lookup fails, or the job shows a true
    Complete or Failed condition), a wait of more than [k] attempts ends at
    that lookup, after [k + 1] lookups, with the outcome of that answer: no
    error for a job that is gone or complete, the lookup's error, or the
    error that the job is in failed state. *)
Theorem wait_ends_at_settled_answer (conn : Clientset Remote) (ns name : string)
  (k n : nat) (w : World Remote) (r1 r2 : Remote) (ans : batchv1.Job + error) :
  lookupsFind conn ns name unfinished k (remote w) r1 ->
  JobsGet conn ns name r1 = (ans, r2) ->
  settled ans = true ->
  (k < n)%nat ->
  retry.RetryContext n (poller conn ns name) w
  = (pollOutcome ns name ans,
     {| remote := r2; calls := calls w ++ repeat (CallGet ns name) (S k) |}).
Proof. exact (wait_settles conn ns name k n w r1 r2 ans). Qed.

(** The wait that uses up its attempts. *)
Lemma wait_exhausted (conn : Clientset Remote) (ns name : string)
  (n : nat) (w : World Remote) (r1 : Remote) :
  lookupsFind conn ns name unfinished (S n) (remote w) r1 ->
  retry.RetryContext (S n) (poller conn ns name) w
  = (Some (notComplete ns name),
     {| remote := r1; calls := calls w ++ repeat (CallGet ns name) (S n) |}).
Proof.
  intros Hrun. unfold retry.RetryContext.
  replace (S n) with (S n + 0)%nat at 1 by lia.
  destruct w as [r cl].
  rewrite (wait_through_unfinished conn ns name (S n) 0 None cl r r1 Hrun).
  reflexivity.
Qed.

(** X11: if every one of the [n] lookups a wait may make finds the job
    unfinished, with [n] at least one, the wait ends after exactly [n]
    lookups with the error that the job is not in complete state. *)
Theorem wait_times_out (conn : Clientset Remote) (ns name : string)
  (n : nat) (w : World Remote) (r1 : Remote) :
  lookupsFind conn ns name unfinished (S n) (remote w) r1 ->
  retry.RetryContext (S n) (poller conn ns name) w
  = (Some (notComplete ns name),
     {| remote := r1; calls := calls w ++ repeat (CallGet ns name) (S n) |}).
Proof. exact (wait_exhausted conn ns name n w r1). Qed.

(** X12: a wait that ends with no error has ended at a lookup that either
    failed with a not-found status error or fetched a job whose first true
    Complete or Failed condition is Complete: the wait never reports success
    for a job it last saw unfinished or failed. *)
Theorem wait_success_is_sound (conn : Clientset Remote) (ns name : string)
  (n : nat) (w w' : World Remote) :
  retry.RetryContext n (poller conn ns name) w = (None, w') ->
  exists w0 ans,
    JobsGet conn ns name (remote w0) = (ans, remote w')
    /\ calls w' = (calls w0 ++ [CallGet ns name])%list
    /\ match ans with
       | inr err => isStatusNotFound err = true
       | inl job => finished job = true
       end.
Proof.
  unfold retry.RetryContext. generalize (@None error) at 1 as last.
  revert w. induction n as [| n IH]; intros w last Hloop.
  - simpl in Hloop. unfold ret in Hloop. discriminate.
  - simpl in Hloop. unfold bind, ret in Hloop.
    destruct (JobsGet conn ns name (remote w)) as [ans rem] eqn:Hget.
    rewrite (attempt_after_lookup conn ns name w ans rem Hget) in Hloop.
    destruct ans as [job | err].
    + rewrite scan_outcome in Hloop.
      destruct (unfinished job).
      * simpl in Hloop. destruct (IH _ _ Hloop) as [w0 [ans Hend]].
        exists w0, ans. exact Hend.
      * unfold pollOutcome in Hloop.
        destruct (finished job) eqn:Hfin; simpl in Hloop; [| discriminate].
        injection Hloop as <-. exists w, (inl job). simpl. auto.
    + destruct (isStatusNotFound err) eqn:Hnf; simpl in Hloop; [| discriminate].
      injection Hloop as <-. exists w, (inr err). simpl. auto.
Qed.

End Waiting.

(** X6 at a concrete input: the job is gone and a TTL of 30 is recorded. *)
Lemma read_vanished_job_witness :
  resourceKubernetesJobV1Read (fake.dataOf (Some (IString "30"))) fake.meta
    fake.emptyWorld
  = (([], fake.dataOf (Some (IString "30"))),
     afterGet fake.emptyWorld "prod" "batch-job-7" ∅).
Proof.
  pose proof (read_vanished_job (fake.dataOf (Some (IString "30"))) fake.meta
                fake.clientset "prod" "batch-job-7" fake.emptyWorld
                (apierrors.NewNotFound "batch-job-7") ∅) as H.
  at_input H. destruct H as [H _].
  at_input H. exact H.
Defined.

(** X7 at a concrete input: the first lookup finds the job, the second one
    answers not-found. *)
Lemma read_job_lost_between_lookups_witness :
  fst (resourceKubernetesJobV1Read (fake.dataOf None) scripted.meta
         (scripted.world [inl (fake.jobWith []);
                          inr (apierrors.NewNotFound "batch-job-7")]))
  = (diag.Errorf ("Failed to read Job! API error: jobs.batch "
                  +:+ apierrors.quoted "batch-job-7" +:+ " not found"),
     fake.dataOf None).
Proof.
  pose proof (read_job_lost_between_lookups (fake.dataOf None) scripted.meta
                scripted.clientset "prod" "batch-job-7"
                (scripted.world [inl (fake.jobWith []);
                                 inr (apierrors.NewNotFound "batch-job-7")])
                (fake.jobWith []) (apierrors.NewNotFound "batch-job-7")
                [inr (apierrors.NewNotFound "batch-job-7")] []) as H.
  at_input H. rewrite H. reflexivity.
Defined.

(** The read at a concrete input: two lookups that find the job. *)
Lemma read_found_job_witness :
  resourceKubernetesJobV1Read (fake.dataOf None) fake.meta
    (fake.worldWith (fake.jobWith []))
  = (([], fake.dataOf None),
     {| remote := remote (fake.worldWith (fake.jobWith []));
        calls := [CallGet "prod" "batch-job-7"; CallGet "prod" "batch-job-7"] |}).
Proof.
  pose proof (read_found_job (fake.dataOf None) fake.meta fake.clientset
                "prod" "batch-job-7" (fake.worldWith (fake.jobWith []))
                (fake.jobWith []) (fake.jobWith [])
                (remote (fake.worldWith (fake.jobWith [])))
                (remote (fake.worldWith (fake.jobWith [])))) as H.
  at_input H. rewrite H. reflexivity.
Defined.

(** X10 at a concrete input: one lookup finds the job running, the next one
    finds it complete; three attempts are allowed. *)
Lemma wait_ends_at_settled_answer_witness :
  retry.RetryContext 3
    (retryUntilJobV1IsFinished scripted.clientset "prod" "batch-job-7")
    (scripted.world [inl (fake.jobWith []);
                     inl (fake.jobWith [fake.condition "Complete" "True"])])
  = (None,
     {| remote := [];
        calls := [CallGet "prod" "batch-job-7"; CallGet "prod" "batch-job-7"] |}).
Proof.
  pose proof (wait_ends_at_settled_answer scripted.clientset "prod" "batch-job-7"
                1 3
                (scripted.world [inl (fake.jobWith []);
                                 inl (fake.jobWith [fake.condition "Complete" "True"])])
                [inl (fake.jobWith [fake.condition "Complete" "True"])] []
                (inl (fake.jobWith [fake.condition "Complete" "True"]))) as H.
  assert (Hrun : lookupsFind scripted.clientset "prod" "batch-job-7" unfinished 1
                   [inl (fake.jobWith []);
                    inl (fake.jobWith [fake.condition "Complete" "True"])]
                   [inl (fake.jobWith [fake.condition "Complete" "True"])]).
  { exists (fake.jobWith []),
      [inl (fake.jobWith [fake.condition "Complete" "True"])].
    repeat split. }
  specialize (H Hrun). at_input H. exact H.
Defined.

(** X11 at a concrete input: two attempts, the job is running at both. *)
Lemma wait_times_out_witness :
  retry.RetryContext 2
    (retryUntilJobV1IsFinished fake.clientset "prod" "batch-job-7")
    (fake.worldWith (fake.jobWith []))
  = (Some (notComplete "prod" "batch-job-7"),
     {| remote := remote (fake.worldWith (fake.jobWith []));
        calls := [CallGet "prod" "batch-job-7"; CallGet "prod" "batch-job-7"] |}).
Proof.
  pose proof (wait_times_out fake.clientset "prod" "batch-job-7" 1
                (fake.worldWith (fake.jobWith []))
                (remote (fake.worldWith (fake.jobWith [])))) as H.
  assert (Hrun : lookupsFind fake.clientset "prod" "batch-job-7" unfinished 2
                   (remote (fake.worldWith (fake.jobWith [])))
                   (remote (fake.worldWith (fake.jobWith [])))).
  { exists (fake.jobWith []), (remote (fake.worldWith (fake.jobWith []))).
    split; [reflexivity |]. split; [reflexivity |].
    exists (fake.jobWith []), (remote (fake.worldWith (fake.jobWith []))).
    repeat split. }
  specialize (H Hrun). exact H.
Defined.

(** X12 at a concrete input: a wait that ends with no error because the job
    is gone. *)
Lemma wait_success_is_sound_witness :
  exists w0 ans,
    JobsGet fake.clientset "prod" "batch-job-7" (remote w0) = (ans, ∅)
    /\ match ans with
       | inr err => isStatusNotFound err = true
       | inl job => finished job = true
       end.
Proof.
  pose proof (wait_success_is_sound fake.clientset "prod" "batch-job-7" 3
                fake.emptyWorld
                (afterGet fake.emptyWorld "prod" "batch-job-7" ∅)) as H.
  at_input H. destruct H as [w0 [ans [Hget [_ Hans]]]].
  exists w0, ans. split; [exact Hget | exact Hans].
Defined.

(** ** Deleting a job *)

Section Deleting.

Context {Remote : Type} `{Helpers Remote}.

Local Abbreviation delete_ := resourceKubernetesJobV1Delete.

(** One confirming attempt is a lookup followed by a decision on its
    answer. *)
Lemma confirm_after_lookup (conn : Clientset Remote) (ns name : string)
  (w : World Remote) (r : batchv1.Job + error) (rem : Remote) :
  JobsGet conn ns name (remote w) = (r, rem) ->
  deleteConfirm conn ns name w =
  (match r with
   | inr err =>
       if isStatusNotFound err then None else retry.NonRetryableError err
   | inl _ => retry.RetryableError (stillExists name)
   end, afterGet w ns name rem).
Proof.
  intros Hget. unfold deleteConfirm, bind, Get, afterGet.
  rewrite Hget. destruct r as [job | err]; [reflexivity |].
  destruct (isStatusNotFound err); reflexivity.
Qed.

(** The confirming loop over a run of lookups that still find the job. *)
Lemma confirm_through_existing (conn : Clientset Remote) (ns name : string)
  (k : nat) :
  forall n last cl r r',
    lookupsFind conn ns name (fun _ => true) k r r' ->
    retry.retryLoop (k + n) last (deleteConfirm conn ns name)
      {| remote := r; calls := cl |}
    = retry.retryLoop n
        (match k with O => last | S _ => Some (stillExists name) end)
        (deleteConfirm conn ns name)
        {| remote := r'; calls := cl ++ repeat (CallGet ns name) k |}.
Proof.
  induction k as [| k IH]; intros n last cl r r' Hrun; simpl in Hrun.
  - subst r'. simpl. rewrite app_nil_r. reflexivity.
  - destruct Hrun as [job [r1 [Hget [_ Hrun]]]].
    change (S k + n)%nat with (S (k + n)).
    rewrite (retryLoop_retry _ _ last _
               (afterGet {| remote := r; calls := cl |} ns name r1)
               (stillExists name)).
    + unfold afterGet. simpl calls.
      rewrite (IH n (Some (stillExists name)) _ r1 r' Hrun).
      rewrite <- app_assoc. simpl. destruct k; reflexivity.
    + rewrite (confirm_after_lookup conn ns name {| remote := r; calls := cl |}
                 (inl job) r1 Hget). reflexivity.
Qed.

(** A confirming loop that ends with no error has ended at a lookup that
    failed with a not-found status error. *)
Lemma confirm_success_is_sound (conn : Clientset Remote) (ns name : string)
  (n : nat) :
  forall last w w',
    retry.retryLoop n last (deleteConfirm conn ns name) w = (None, w') ->
    exists w0 err,
      JobsGet conn ns name (remote w0) = (inr err, remote w')
      /\ isStatusNotFound err = true.
Proof.
  induction n as [| n IH]; intros last w w' Hloop.
  - simpl in Hloop. unfold ret in Hloop. discriminate.
  - simpl in Hloop. unfold bind, ret in Hloop.
    destruct (JobsGet conn ns name (remote w)) as [ans rem] eqn:Hget.
    rewrite (confirm_after_lookup conn ns name w ans rem Hget) in Hloop.
    destruct ans as [job | err]; simpl in Hloop.
    + exact (IH _ _ _ Hloop).
    + destruct (isStatusNotFound err) eqn:Hnf; simpl in Hloop; [| discriminate].
      injection Hloop as <-. exists w, err. simpl. auto.
Qed.

(** The delete once the cluster has accepted the deletion. *)
Lemma delete_accepted (d : ResourceData.t) (meta : KubeClientsets Remote)
  (conn : Clientset Remote) (ns name : string) (w : World Remote) (r0 : Remote) :
  MainClientset meta = inl conn ->
  idParts (ResourceData.Id d) = inl (ns, name) ->
  JobsDelete conn ns name (remote w) = (None, r0) ->
  delete_ d meta w
  = (let (err, w') :=
       retry.RetryContext (ResourceData.Timeout d TimeoutDelete)
         (deleteConfirm conn ns name) (afterDelete w ns name r0) in
     (match err with
      | Some e => (diag.FromErr (Some e), d)
      | None => ([], ResourceData.SetId EmptyString d)
      end, w')).
Proof.
  intros Hconn Hparts Hdel.
  unfold resourceKubernetesJobV1Delete. rewrite Hconn, Hparts.
  unfold bind at 1. unfold Delete, afterDelete. rewrite Hdel.
  unfold bind, ret.
  destruct (retry.RetryContext _ _ _) as [err w']. destruct err; reflexivity.
Qed.

(** X13: when the cluster refuses the deletion with an error other than a
    not-found status error, the delete returns the error that the job could
    not be deleted, keeps the identifier and makes no further call. *)
Theorem delete_call_fails (d : ResourceData.t) (meta : KubeClientsets Remote)
  (conn : Clientset Remote) (ns name : string) (w : World Remote)
  (err : error) (rem : Remote) :
  MainClientset meta = inl conn ->
  idParts (ResourceData.Id d) = inl (ns, name) ->
  JobsDelete conn ns name (remote w) = (Some err, rem) ->
  isStatusNotFound err = false ->
  delete_ d meta w
  = ((diag.Errorf ("Failed to delete Job! API error: " +:+ Error err), d),
     afterDelete w ns name rem).
Proof.
  intros Hconn Hparts Hdel Hnf.
  rewrite (delete_refused d meta conn ns name w err rem Hconn Hparts Hdel).
  rewrite Hnf. reflexivity.
Qed.

(** X14: when the deletion is accepted, the next [k] lookups still find the
    job and the one after fails, with more than [k] attempts allowed: if that
    failure is a not-found status error the delete returns no diagnostics and
    drops the identifier; otherwise it returns that error and keeps the
    identifier.  Either way it has made the delete call and [k + 1]
    lookups. *)
Theorem delete_until_lookup_fails (d : ResourceData.t)
  (meta : KubeClientsets Remote) (conn : Clientset Remote) (ns name : string)
  (w : World Remote) (k : nat) (r0 r1 r2 : Remote) (err : error) :
  MainClientset meta = inl conn ->
  idParts (ResourceData.Id d) = inl (ns, name) ->
  JobsDelete conn ns name (remote w) = (None, r0) ->
  lookupsFind conn ns name (fun _ => true) k r0 r1 ->
  JobsGet conn ns name r1 = (inr err, r2) ->
  (k < ResourceData.Timeout d TimeoutDelete)%nat ->
  delete_ d meta w
  = (if isStatusNotFound err then ([], ResourceData.SetId EmptyString d)
     else (diag.FromErr (Some err), d),
     {| remote := r2;
        calls := calls w ++ CallDelete ns name :: repeat (CallGet ns name) (S k) |}).
Proof.
  intros Hconn Hparts Hdel Hrun Hget Hlt.
  rewrite (delete_accepted d meta conn ns name w r0 Hconn Hparts Hdel).
  unfold retry.RetryContext, afterDelete.
  set (n := ResourceData.Timeout d TimeoutDelete) in *.
  replace n with (k + S (n - S k))%nat by lia.
  rewrite (confirm_through_existing conn ns name k _ None _ r0 r1 Hrun).
  rewrite (retryLoop_stop _ _ _ _
             {| remote := r2;
                calls := calls w ++ CallDelete ns name
                           :: repeat (CallGet ns name) (S k) |}
             (if isStatusNotFound err then None else Some err)).
  - destruct (isStatusNotFound err); reflexivity.
  - rewrite (confirm_after_lookup conn ns name
               {| remote := r1;
                  calls := (calls w ++ [CallDelete ns name])
                             ++ repeat (CallGet ns name) k |}
               (inr err) r2 Hget).
    unfold afterGet. simpl calls.
    replace (S k) with (k + 1)%nat by lia.
    rewrite repeat_app. simpl repeat.
    rewrite <- !app_assoc. simpl.
    destruct (isStatusNotFound err); reflexivity.
Qed.

(** X15: when the deletion is accepted and every lookup the timeout allows,
    at least one, still finds the job, the delete returns the error that the
    job still exists and keeps the identifier. *)
Theorem delete_times_out (d : ResourceData.t)
  (meta : KubeClientsets Remote) (conn : Clientset Remote) (ns name : string)
  (w : World Remote) (n : nat) (r0 r1 : Remote) :
  MainClientset meta = inl conn ->
  idParts (ResourceData.Id d) = inl (ns, name) ->
  JobsDelete conn ns name (remote w) = (None, r0) ->
  ResourceData.Timeout d TimeoutDelete = S n ->
  lookupsFind conn ns name (fun _ => true) (S n) r0 r1 ->
  delete_ d meta w
  = ((diag.FromErr (Some (stillExists name)), d),
     {| remote := r1;
        calls := calls w ++ CallDelete ns name :: repeat (CallGet ns name) (S n) |}).
Proof.
  intros Hconn Hparts Hdel Htimeout Hrun.
  rewrite (delete_accepted d meta conn ns name w r0 Hconn Hparts Hdel).
  unfold retry.RetryContext, afterDelete. rewrite Htimeout.
  replace (S n) with (S n + 0)%nat at 1 by lia.
  rewrite (confirm_through_existing conn ns name (S n) 0 None _ r0 r1 Hrun).
  simpl retry.retryLoop. unfold ret.
  rewrite <- app_assoc. reflexivity.
Qed.

(** X16: the delete hands back the configuration it was given, unless it
    returns no diagnostics after the cluster accepted the deletion and a
    later lookup failed with a not-found status error; only then is the
    identifier dropped. *)
Theorem delete_drops_id_only_when_confirmed (d : ResourceData.t)
  (meta : KubeClientsets Remote) (w : World Remote) :
  snd (fst (delete_ d meta w)) = d
  \/ (snd (fst (delete_ d meta w)) = ResourceData.SetId EmptyString d
      /\ fst (fst (delete_ d meta w)) = []
      /\ exists conn ns name r0 w0 err,
           MainClientset meta = inl conn
           /\ idParts (ResourceData.Id d) = inl (ns, name)
           /\ JobsDelete conn ns name (remote w) = (None, r0)
           /\ JobsGet conn ns name (remote w0)
              = (inr err, remote (snd (delete_ d meta w)))
           /\ isStatusNotFound err = true).
Proof.
  destruct (MainClientset meta) as [conn | e0] eqn:Hconn.
  2:{ left. unfold resourceKubernetesJobV1Delete. rewrite Hconn. reflexivity. }
  destruct (idParts (ResourceData.Id d)) as [[ns name] | e0] eqn:Hparts.
  2:{ left. unfold resourceKubernetesJobV1Delete. rewrite Hconn, Hparts.
      reflexivity. }
  destruct (JobsDelete conn ns name (remote w)) as [[err |] r0] eqn:Hdel.
  - left. rewrite (delete_refused d meta conn ns name w err r0 Hconn Hparts Hdel).
    destruct (isStatusNotFound err); reflexivity.
  - rewrite (delete_accepted d meta conn ns name w r0 Hconn Hparts Hdel).
    unfold retry.RetryContext.
    destruct (retry.retryLoop _ _ _ _) as [[e |] w'] eqn:Hloop.
    + left. reflexivity.
    + right. simpl. split; [reflexivity |]. split; [reflexivity |].
      destruct (confirm_success_is_sound conn ns name _ _ _ _ Hloop)
        as [w0 [err [Hget Hnf]]].
      exists conn, ns, name, r0, w0, err. auto.
Qed.

(** X17: the delete makes no remote call, or one delete call followed by at
    most as many lookups as the timeout allows attempts; it never creates or
    patches. *)
Theorem delete_calls (d : ResourceData.t) (meta : KubeClientsets Remote)
  (w : World Remote) :
  calls (snd (delete_ d meta w)) = calls w
  \/ exists ns name k,
       idParts (ResourceData.Id d) = inl (ns, name)
       /\ (k <= ResourceData.Timeout d TimeoutDelete)%nat
       /\ calls (snd (delete_ d meta w))
          = (calls w ++ CallDelete ns name :: repeat (CallGet ns name) k)%list.
Proof.
  destruct (MainClientset meta) as [conn | e0] eqn:Hconn.
  2:{ left. unfold resourceKubernetesJobV1Delete. rewrite Hconn. reflexivity. }
  destruct (idParts (ResourceData.Id d)) as [[ns name] | e0] eqn:Hparts.
  2:{ left. unfold resourceKubernetesJobV1Delete. rewrite Hconn, Hparts.
      reflexivity. }
  right. exists ns, name.
  destruct (JobsDelete conn ns name (remote w)) as [[err |] r0] eqn:Hdel.
  - exists 0%nat. split; [reflexivity |]. split; [lia |].
    rewrite (delete_refused d meta conn ns name w err r0 Hconn Hparts Hdel).
    reflexivity.
  - rewrite (delete_accepted d meta conn ns name w r0 Hconn Hparts Hdel).
    destruct (retryLoop_calls (deleteConfirm conn ns name) (CallGet ns name))
      with (n := ResourceData.Timeout d TimeoutDelete) (last := @None error)
           (w := afterDelete w ns name r0)
      as [k [Hk Hcalls]].
    { intros w0.
      destruct (JobsGet conn ns name (remote w0)) as [r rem] eqn:Hget.
      rewrite (confirm_after_lookup conn ns name w0 r rem Hget). reflexivity. }
    exists k. split; [reflexivity |]. split; [exact Hk |].
    unfold retry.RetryContext.
    destruct (retry.retryLoop _ _ _ _) as [err w'].
    simpl in Hcalls. simpl. rewrite Hcalls, <- app_assoc. reflexivity.
Qed.

End Deleting.

(** ** Creating a job *)

Section Creating.

Context {Remote : Type} `{Helpers Remote}.

Local Abbreviation create := resourceKubernetesJobV1Create.
Local Abbreviation poller := retryUntilJobV1IsFinished.

(** The create once the cluster has created the job, when it waits. *)
Lemma create_created (d : ResourceData.t) (meta : KubeClientsets Remote)
  (conn : Clientset Remote) (job out : batchv1.Job) (ns name : string)
  (w : World Remote) (r0 : Remote) :
  MainClientset meta = inl conn ->
  expandJob d = inl job ->
  JobsCreate conn (metav1.Namespace (batchv1.JobObjectMeta job)) job (remote w)
  = (inl out, r0) ->
  idParts (buildId (batchv1.JobObjectMeta out)) = inl (ns, name) ->
  ResourceData.wait_for_completion d = true ->
  create d meta w
  = (let (err, w') :=
       retry.RetryContext (ResourceData.Timeout d TimeoutCreate)
         (poller conn ns name)
         {| remote := r0;
            calls := calls w
                     ++ [CallCreate (metav1.Namespace (batchv1.JobObjectMeta job))
                           (metav1.Name (batchv1.JobObjectMeta job))] |} in
     ((diag.FromErr err, recorded out d), w')).
Proof.
  intros Hconn Hexpand Hcreate Hparts Hwait.
  unfold resourceKubernetesJobV1Create. rewrite Hconn, Hexpand.
  unfold bind at 1. unfold Create. rewrite Hcreate.
  simpl. rewrite Hparts, Hwait. unfold bind, ret, recorded.
  destruct (retry.RetryContext _ _ _) as [err w']. destruct err; reflexivity.
Qed.

(** The create when the cluster refuses to create the job. *)
Lemma create_refused (d : ResourceData.t) (meta : KubeClientsets Remote)
  (conn : Clientset Remote) (job : batchv1.Job) (w : World Remote)
  (err : error) (r0 : Remote) :
  MainClientset meta = inl conn ->
  expandJob d = inl job ->
  JobsCreate conn (metav1.Namespace (batchv1.JobObjectMeta job)) job (remote w)
  = (inr err, r0) ->
  create d meta w
  = ((diag.Errorf ("Failed to create Job! API error: " +:+ Error err), d),
     {| remote := r0;
        calls := calls w
                 ++ [CallCreate (metav1.Namespace (batchv1.JobObjectMeta job))
                       (metav1.Name (batchv1.JobObjectMeta job))] |}).
Proof.
  intros Hconn Hexpand Hcreate.
  unfold resourceKubernetesJobV1Create. rewrite Hconn, Hexpand.
  unfold bind, Create. rewrite Hcreate. reflexivity.
Qed.

(** X18: a create that waits, after the cluster created the job: if the
    first [k] lookups find the job unfinished and the next one is settled,
    with more than [k] attempts allowed, the create returns the outcome of
    that answer: no diagnostics for a job that is gone or complete, the
    lookup's error, or the error that the job is in failed state.  In every
    case the identifier of the created job is recorded. *)
Theorem create_waits_until_settled (d : ResourceData.t)
  (meta : KubeClientsets Remote) (conn : Clientset Remote)
  (job out : batchv1.Job) (ns name : string) (w : World Remote)
  (k : nat) (r0 r1 r2 : Remote) (ans : batchv1.Job + error) :
  MainClientset meta = inl conn ->
  expandJob d = inl job ->
  JobsCreate conn (metav1.Namespace (batchv1.JobObjectMeta job)) job (remote w)
  = (inl out, r0) ->
  idParts (buildId (batchv1.JobObjectMeta out)) = inl (ns, name) ->
  ResourceData.wait_for_completion d = true ->
  lookupsFind conn ns name unfinished k r0 r1 ->
  JobsGet conn ns name r1 = (ans, r2) ->
  settled ans = true ->
  (k < ResourceData.Timeout d TimeoutCreate)%nat ->
  create d meta w
  = ((diag.FromErr (pollOutcome ns name ans), recorded out d),
     {| remote := r2;
        calls := calls w
                 ++ CallCreate (metav1.Namespace (batchv1.JobObjectMeta job))
                      (metav1.Name (batchv1.JobObjectMeta job))
                    :: repeat (CallGet ns name) (S k) |}).
Proof.
  intros Hconn Hexpand Hcreate Hparts Hwait Hrun Hget Hsettled Hlt.
  rewrite (create_created d meta conn job out ns name w r0
             Hconn Hexpand Hcreate Hparts Hwait).
  rewrite (wait_settles conn ns name k _
             {| remote := r0;
                calls := calls w
                         ++ [CallCreate (metav1.Namespace (batchv1.JobObjectMeta job))
                               (metav1.Name (batchv1.JobObjectMeta job))] |}
             r1 r2 ans Hrun Hget Hsettled Hlt).
  simpl calls. rewrite <- app_assoc. reflexivity.
Qed.

(** X19: a create that waits, after the cluster created the job: if every
    lookup the timeout allows, at least one, finds the job unfinished, the
    create returns the error that the job is not in complete state, with the
    identifier of the created job recorded. *)
Theorem create_wait_times_out (d : ResourceData.t)
  (meta : KubeClientsets Remote) (conn : Clientset Remote)
  (job out : batchv1.Job) (ns name : string) (w : World Remote)
  (n : nat) (r0 r1 : Remote) :
  MainClientset meta = inl conn ->
  expandJob d = inl job ->
  JobsCreate conn (metav1.Namespace (batchv1.JobObjectMeta job)) job (remote w)
  = (inl out, r0) ->
  idParts (buildId (batchv1.JobObjectMeta out)) = inl (ns, name) ->
  ResourceData.wait_for_completion d = true ->
  ResourceData.Timeout d TimeoutCreate = S n ->
  lookupsFind conn ns name unfinished (S n) r0 r1 ->
  create d meta w
  = ((diag.FromErr (Some (notComplete ns name)), recorded out d),
     {| remote := r1;
        calls := calls w
                 ++ CallCreate (metav1.Namespace (batchv1.JobObjectMeta job))
                      (metav1.Name (batchv1.JobObjectMeta job))
                    :: repeat (CallGet ns name) (S n) |}).
Proof.
  intros Hconn Hexpand Hcreate Hparts Hwait Htimeout Hrun.
  rewrite (create_created d meta conn job out ns name w r0
             Hconn Hexpand Hcreate Hparts Hwait).
  rewrite Htimeout.
  rewrite (wait_exhausted conn ns name n
             {| remote := r0;
                calls := calls w
                         ++ [CallCreate (metav1.Namespace (batchv1.JobObjectMeta job))
                               (metav1.Name (batchv1.JobObjectMeta job))] |}
             r1 Hrun).
  simpl calls. rewrite <- app_assoc. reflexivity.
Qed.

(** X20: the create hands back the configuration it was given unless the
    cluster has created the job: no identifier is recorded for a job that
    was not created. *)
Theorem create_changes_config_only_after_creation (d : ResourceData.t)
  (meta : KubeClientsets Remote) (w : World Remote) :
  (snd (fst (create d meta w)) = d
   /\ (length (calls (snd (create d meta w))) <= S (length (calls w)))%nat)
  \/ exists conn job out r0,
       MainClientset meta = inl conn
       /\ expandJob d = inl job
       /\ JobsCreate conn (metav1.Namespace (batchv1.JobObjectMeta job)) job
            (remote w) = (inl out, r0).
Proof.
  destruct (MainClientset meta) as [conn | e0] eqn:Hconn.
  2:{ left. unfold resourceKubernetesJobV1Create. rewrite Hconn. simpl. auto. }
  destruct (expandJob d) as [job | e0] eqn:Hexpand.
  2:{ left. unfold resourceKubernetesJobV1Create. rewrite Hconn, Hexpand.
      simpl. auto. }
  destruct (JobsCreate conn (metav1.Namespace (batchv1.JobObjectMeta job)) job
              (remote w)) as [[out | err] r0] eqn:Hcreate.
  - right. exists conn, job, out, r0. auto.
  - left.
    rewrite (create_refused d meta conn job w err r0 Hconn Hexpand Hcreate).
    simpl. rewrite length_app. simpl. split; [reflexivity | lia].
Qed.

End Creating.

(** ** Updating a job *)

Section Updating.

Context {Remote : Type} `{Helpers Remote}.

Local Abbreviation update := resourceKubernetesJobV1Update.
Local Abbreviation read := resourceKubernetesJobV1Read.
Local Abbreviation poller := retryUntilJobV1IsFinished.

(** The update of a job that the opening lookup finds. *)
Lemma update_found (d : ResourceData.t) (meta : KubeClientsets Remote)
  (conn : Clientset Remote) (ns name : string) (w : World Remote)
  (job0 : batchv1.Job) (r0 : Remote) :
  MainClientset meta = inl conn ->
  idParts (ResourceData.Id d) = inl (ns, name) ->
  JobsGet conn ns name (remote w) = (inl job0, r0) ->
  update d meta w
  = match MarshalJSON (updateOps d) with
    | inr err =>
        ((diag.Errorf ("Failed to marshal update operations: " +:+ Error err), d),
         afterGet w ns name r0)
    | inl data =>
        let (r, r1) := JobsPatch conn ns name data r0 in
        let w1 := {| remote := r1;
                     calls := calls w ++ [CallGet ns name; CallPatch ns name] |} in
        match r with
        | inr err =>
            ((diag.Errorf ("Failed to update Job! API error: " +:+ Error err), d), w1)
        | inl out =>
            if ResourceData.wait_for_completion d then
              let (err, w') :=
                retry.RetryContext (ResourceData.Timeout d TimeoutUpdate)
                  (poller conn ns name) w1 in
              match err with
              | Some e => ((diag.FromErr (Some e), recorded out d), w')
              | None => read (recorded out d) meta w'
              end
            else read (recorded out d) meta w1
        end
    end.
Proof.
  intros Hconn Hparts Hget.
  unfold resourceKubernetesJobV1Update. rewrite Hconn, Hparts.
  unfold bind at 1. unfold Get. rewrite Hget.
  fold (updateOps d).
  destruct (MarshalJSON (updateOps d)) as [data | err]; [| reflexivity].
  unfold bind at 1. unfold Patch. simpl remote. simpl calls.
  destruct (JobsPatch conn ns name data r0) as [[out | err] r1];
    rewrite <- app_assoc; simpl app; [| reflexivity].
  fold (recorded out d).
  change (ResourceData.wait_for_completion (recorded out d))
    with (ResourceData.wait_for_completion d).
  destruct (ResourceData.wait_for_completion d); [| reflexivity].
  unfold bind.
  change (ResourceData.Timeout (recorded out d) TimeoutUpdate)
    with (ResourceData.Timeout d TimeoutUpdate).
  destruct (retry.RetryContext _ _ _) as [err w']. destruct err; reflexivity.
Qed.

(** The update when the opening lookup fails otherwise. *)
Lemma update_lookup_fails (d : ResourceData.t) (meta : KubeClientsets Remote)
  (conn : Clientset Remote) (ns name : string) (w : World Remote)
  (err : error) (rem : Remote) :
  MainClientset meta = inl conn ->
  idParts (ResourceData.Id d) = inl (ns, name) ->
  JobsGet conn ns name (remote w) = (inr err, rem) ->
  apierrors.IsNotFound err = false ->
  update d meta w
  = ((diag.Errorf ("Error retrieving Job: " +:+ Error err), d),
     afterGet w ns name rem).
Proof.
  intros Hconn Hparts Hget Hnf.
  unfold resourceKubernetesJobV1Update. rewrite Hconn, Hparts.
  unfold bind, Get, afterGet. rewrite Hget, Hnf. reflexivity.
Qed.

(** X21: when the lookup that opens the update fails with an error other
    than not-found, the update returns the error that the job could not be
    retrieved, leaves the configuration as it was and makes no further
    call. *)
Theorem update_lookup_error (d : ResourceData.t) (meta : KubeClientsets Remote)
  (conn : Clientset Remote) (ns name : string) (w : World Remote)
  (err : error) (rem : Remote) :
  MainClientset meta = inl conn ->
  idParts (ResourceData.Id d) = inl (ns, name) ->
  JobsGet conn ns name (remote w) = (inr err, rem) ->
  apierrors.IsNotFound err = false ->
  update d meta w
  = ((diag.Errorf ("Error retrieving Job: " +:+ Error err), d),
     afterGet w ns name rem).
Proof. exact (update_lookup_fails d meta conn ns name w err rem). Qed.

(** X22: for a job that the opening lookup finds: if the patch cannot be
    marshalled the update fails without a patch call; if the cluster refuses
    the patch the update fails after it, without a wait or a read.  In both
    cases the configuration is left as it was. *)
Theorem update_patch_not_applied (d : ResourceData.t)
  (meta : KubeClientsets Remote) (conn : Clientset Remote) (ns name : string)
  (w : World Remote) (job0 : batchv1.Job) (r0 : Remote) :
  MainClientset meta = inl conn ->
  idParts (ResourceData.Id d) = inl (ns, name) ->
  JobsGet conn ns name (remote w) = (inl job0, r0) ->
  (forall err,
     MarshalJSON (updateOps d) = inr err ->
     update d meta w
     = ((diag.Errorf ("Failed to marshal update operations: " +:+ Error err), d),
        {| remote := r0; calls := calls w ++ [CallGet ns name] |}))
  /\ (forall data err r1,
        MarshalJSON (updateOps d) = inl data ->
        JobsPatch conn ns name data r0 = (inr err, r1) ->
        update d meta w
        = ((diag.Errorf ("Failed to update Job! API error: " +:+ Error err), d),
           {| remote := r1;
              calls := calls w ++ [CallGet ns name; CallPatch ns name] |})).
Proof.
  intros Hconn Hparts Hget.
  rewrite (update_found d meta conn ns name w job0 r0 Hconn Hparts Hget).
  split.
  - intros err Hmarshal. rewrite Hmarshal. reflexivity.
  - intros data err r1 Hmarshal Hpatch. rewrite Hmarshal, Hpatch. reflexivity.
Qed.

(** X23: an update that waits, after the cluster applied the patch: if the
    next [k] lookups find the job unfinished and the one after is settled,
    with more than [k] attempts allowed, then on an error outcome (a failed
    lookup, a job in failed state) the update returns that error, and on a
    job that is complete or gone it goes on to the read and returns what the
    read returns.  The identifier of the patched job is recorded in both
    cases. *)
Theorem update_waits_then_reads (d : ResourceData.t)
  (meta : KubeClientsets Remote) (conn : Clientset Remote) (ns name : string)
  (w : World Remote) (job0 out : batchv1.Job) (data : string)
  (k : nat) (r0 r1 r2 r3 : Remote) (ans : batchv1.Job + error) :
  MainClientset meta = inl conn ->
  idParts (ResourceData.Id d) = inl (ns, name) ->
  JobsGet conn ns name (remote w) = (inl job0, r0) ->
  MarshalJSON (updateOps d) = inl data ->
  JobsPatch conn ns name data r0 = (inl out, r1) ->
  ResourceData.wait_for_completion d = true ->
  lookupsFind conn ns name unfinished k r1 r2 ->
  JobsGet conn ns name r2 = (ans, r3) ->
  settled ans = true ->
  (k < ResourceData.Timeout d TimeoutUpdate)%nat ->
  update d meta w
  = match pollOutcome ns name ans with
    | Some e =>
        ((diag.FromErr (Some e), recorded out d),
         {| remote := r3;
            calls := calls w ++ CallGet ns name :: CallPatch ns name
                       :: repeat (CallGet ns name) (S k) |})
    | None =>
        read (recorded out d) meta
          {| remote := r3;
             calls := calls w ++ CallGet ns name :: CallPatch ns name
                        :: repeat (CallGet ns name) (S k) |}
    end.
Proof.
  intros Hconn Hparts Hget Hmarshal Hpatch Hwait Hrun Hget2 Hsettled Hlt.
  rewrite (update_found d meta conn ns name w job0 r0 Hconn Hparts Hget).
  rewrite Hmarshal, Hpatch. cbv zeta. rewrite Hwait.
  rewrite (wait_settles conn ns name k _
             {| remote := r1;
                calls := calls w ++ [CallGet ns name; CallPatch ns name] |}
             r2 r3 ans Hrun Hget2 Hsettled Hlt).
  simpl calls. rewrite <- app_assoc. reflexivity.
Qed.

(** X24: the update hands back the configuration it was given, after at most
    two remote calls, unless the cluster has applied the patch. *)
Theorem update_changes_config_only_after_patch (d : ResourceData.t)
  (meta : KubeClientsets Remote) (w : World Remote) :
  (snd (fst (update d meta w)) = d
   /\ (length (calls (snd (update d meta w))) <= 2 + length (calls w))%nat)
  \/ exists conn ns name job0 r0 data out r1,
       MainClientset meta = inl conn
       /\ idParts (ResourceData.Id d) = inl (ns, name)
       /\ JobsGet conn ns name (remote w) = (inl job0, r0)
       /\ MarshalJSON (updateOps d) = inl data
       /\ JobsPatch conn ns name data r0 = (inl out, r1).
Proof.
  destruct (MainClientset meta) as [conn | e0] eqn:Hconn.
  2:{ left. unfold resourceKubernetesJobV1Update. rewrite Hconn. simpl.
      split; [reflexivity | lia]. }
  destruct (idParts (ResourceData.Id d)) as [[ns name] | e0] eqn:Hparts.
  2:{ left. unfold resourceKubernetesJobV1Update. rewrite Hconn, Hparts. simpl.
      split; [reflexivity | lia]. }
  destruct (JobsGet conn ns name (remote w)) as [[job0 | err] r0] eqn:Hget.
  - rewrite (update_found d meta conn ns name w job0 r0 Hconn Hparts Hget).
    destruct (MarshalJSON (updateOps d)) as [data | err] eqn:Hmarshal.
    + destruct (JobsPatch conn ns name data r0) as [[out | err] r1] eqn:Hpatch.
      * right. exists conn, ns, name, job0, r0, data, out, r1. auto 10.
      * left. simpl. rewrite length_app. simpl. split; [reflexivity | lia].
    + left. simpl. rewrite length_app. simpl. split; [reflexivity | lia].
  - left. destruct (apierrors.IsNotFound err) eqn:Hnf.
    + rewrite (update_missing d meta conn ns name w err r0 Hconn Hparts Hget Hnf).
      simpl. rewrite length_app. simpl.
      split; [destruct (ttlInt d >=? 0); reflexivity | lia].
    + rewrite (update_lookup_fails d meta conn ns name w err r0
                 Hconn Hparts Hget Hnf).
      simpl. rewrite length_app. simpl. split; [reflexivity | lia].
Qed.

End Updating.

Section UpdateCalls.

Context {Remote : Type} `{Helpers Remote}.

Local Abbreviation update := resourceKubernetesJobV1Update.

Lemma gets_no_patch (l : list Call) :
  forallb isGet l = true ->
  forallb (fun c => isGet c || isPatch c) l = true /\ List.filter isPatch l = [].
Proof.
  induction l as [| c l IH]; simpl; [auto |].
  intros Hall. apply andb_prop in Hall. destruct Hall as [Hc Hl].
  destruct (IH Hl) as [Hboth Hnone].
  destruct c; simpl in *; try discriminate. auto.
Qed.

Lemma repeat_gets (ns name : string) (k : nat) :
  forallb isGet (repeat (CallGet ns name) k) = true.
Proof. induction k as [| k IH]; simpl; auto. Qed.

(** A lookup and a patch, followed by lookups only. *)
Lemma patch_then_gets (ns name : string) (l : list Call) :
  forallb isGet l = true ->
  forallb (fun c => isGet c || isPatch c)
    (CallGet ns name :: CallPatch ns name :: l) = true
  /\ (length (List.filter isPatch (CallGet ns name :: CallPatch ns name :: l)) <= 1)%nat.
Proof.
  intros Hl. destruct (gets_no_patch l Hl) as [Hboth Hnone].
  simpl. rewrite Hboth, Hnone. simpl. auto.
Qed.

(** X25: the update only looks up and patches: every remote call it makes is
    a lookup or a patch, and it patches at most once; it never creates or
    deletes. *)
Theorem update_calls (d : ResourceData.t)
  (meta : KubeClientsets Remote) (w : World Remote) :
  exists l,
    calls (snd (update d meta w)) = (calls w ++ l)%list
    /\ forallb (fun c => isGet c || isPatch c) l = true
    /\ (length (List.filter isPatch l) <= 1)%nat.
Proof.
  destruct (MainClientset meta) as [conn | e0] eqn:Hconn.
  2:{ exists []. unfold resourceKubernetesJobV1Update. rewrite Hconn. simpl.
      rewrite app_nil_r. auto. }
  destruct (idParts (ResourceData.Id d)) as [[ns name] | e0] eqn:Hparts.
  2:{ exists []. unfold resourceKubernetesJobV1Update. rewrite Hconn, Hparts.
      simpl. rewrite app_nil_r. auto. }
  destruct (JobsGet conn ns name (remote w)) as [[job0 | err] r0] eqn:Hget.
  2:{ exists [CallGet ns name]. destruct (apierrors.IsNotFound err) eqn:Hnf.
      - rewrite (update_missing d meta conn ns name w err r0 Hconn Hparts Hget Hnf).
        simpl. auto.
      - rewrite (update_lookup_fails d meta conn ns name w err r0
                   Hconn Hparts Hget Hnf).
        simpl. auto. }
  rewrite (update_found d meta conn ns name w job0 r0 Hconn Hparts Hget).
  destruct (MarshalJSON (updateOps d)) as [data | err];
    [| exists [CallGet ns name]; simpl; auto].
  destruct (JobsPatch conn ns name data r0) as [[out | err] r1];
    [| exists [CallGet ns name; CallPatch ns name]; simpl; auto].
  cbv zeta.
  set (w1 := {| remote := r1;
                calls := calls w ++ [CallGet ns name; CallPatch ns name] |}).
  destruct (ResourceData.wait_for_completion d).
  - destruct (wait_calls conn ns name
                (ResourceData.Timeout d TimeoutUpdate) w1) as [k [_ Hwait]].
    destruct (retry.RetryContext _ _ w1) as [[e |] w'].
    + exists (CallGet ns name :: CallPatch ns name :: repeat (CallGet ns name) k).
      simpl in Hwait.
      split; [simpl; rewrite Hwait, <- app_assoc; reflexivity |].
      apply patch_then_gets, repeat_gets.
    + destruct (read_calls_and_config (recorded out d) meta w') as [[l [Hread [Hgets _]]] _].
      exists (CallGet ns name :: CallPatch ns name
                :: (repeat (CallGet ns name) k ++ l)).
      simpl in Hwait.
      split; [rewrite Hread, Hwait, <- !app_assoc; reflexivity |].
      apply patch_then_gets. rewrite forallb_app, repeat_gets, Hgets. reflexivity.
  - destruct (read_calls_and_config (recorded out d) meta w1) as [[l [Hread [Hgets _]]] _].
    exists (CallGet ns name :: CallPatch ns name :: l).
    split; [rewrite Hread; subst w1; simpl calls; rewrite <- app_assoc;
            reflexivity |].
    apply patch_then_gets, Hgets.
Qed.

End UpdateCalls.

(** ** The lifecycle at concrete inputs *)

(** Settles a run of lookups on a concrete cluster. *)
Ltac found_run :=
  simpl;
  repeat (eexists; eexists; split; [reflexivity | split; [reflexivity |]]);
  reflexivity.

Ltac at_run H :=
  repeat match type of H with
         | lookupsFind ?c ?ns ?name ?P ?k ?r ?r' -> _ =>
             let HP := fresh "HP" in
             assert (HP : lookupsFind c ns name P k r r') by found_run;
             specialize (H HP); clear HP
         | ?P -> _ =>
             let HP := fresh "HP" in
             assert (HP : P) by by_evaluation;
             specialize (H HP); clear HP
         end.

(** X13 at a concrete input: the transport fails on the delete call. *)
Lemma delete_call_fails_witness :
  resourceKubernetesJobV1Delete (fake.dataOf None) fake.brokenMeta fake.emptyWorld
  = ((diag.Errorf "Failed to delete Job! API error: connection refused",
      fake.dataOf None),
     afterDelete fake.emptyWorld "prod" "batch-job-7" ∅).
Proof.
  pose proof (delete_call_fails (fake.dataOf None) fake.brokenMeta
                fake.brokenClientset "prod" "batch-job-7" fake.emptyWorld
                fake.refused ∅) as H.
  at_input H. exact H.
Defined.

(** X14 at a concrete input: the job is still there at the first lookup and
    gone at the second. *)
Lemma delete_until_lookup_fails_witness :
  resourceKubernetesJobV1Delete (fake.dataOf None) scripted.meta
    (scripted.world [inl (fake.jobWith []);
                     inr (apierrors.NewNotFound "batch-job-7")])
  = (([], ResourceData.SetId EmptyString (fake.dataOf None)),
     {| remote := [];
        calls := [CallDelete "prod" "batch-job-7"; CallGet "prod" "batch-job-7";
                  CallGet "prod" "batch-job-7"] |}).
Proof.
  pose proof (delete_until_lookup_fails (fake.dataOf None) scripted.meta
                scripted.clientset "prod" "batch-job-7"
                (scripted.world [inl (fake.jobWith []);
                                 inr (apierrors.NewNotFound "batch-job-7")])
                1
                [inl (fake.jobWith []); inr (apierrors.NewNotFound "batch-job-7")]
                [inr (apierrors.NewNotFound "batch-job-7")] []
                (apierrors.NewNotFound "batch-job-7")) as H.
  at_run H. exact H.
Defined.

(** X15 at a concrete input: the cluster accepts the deletion and keeps the
    job; three attempts are allowed. *)
Lemma delete_times_out_witness :
  fst (resourceKubernetesJobV1Delete (fake.dataOf None) stuckMeta
         (fake.worldWith (fake.jobWith [])))
  = (diag.Errorf "Job batch-job-7 still exists", fake.dataOf None).
Proof.
  pose proof (delete_times_out (fake.dataOf None) stuckMeta stuckClientset
                "prod" "batch-job-7" (fake.worldWith (fake.jobWith [])) 2
                (remote (fake.worldWith (fake.jobWith [])))
                (remote (fake.worldWith (fake.jobWith [])))) as H.
  at_run H. rewrite H. reflexivity.
Defined.

(** X18 at a concrete input: the created job is running at the first lookup
    and failed at the second. *)
Lemma create_waits_until_settled_witness :
  fst (resourceKubernetesJobV1Create (fake.dataOf None) scripted.meta
         (scripted.world [inl (fake.jobWith []);
                          inl (fake.jobWith [fake.condition "Failed" "True"])]))
  = (diag.Errorf "job: prod/batch-job-7 is in failed state", fake.dataOf None).
Proof.
  pose proof (create_waits_until_settled (fake.dataOf None) scripted.meta
                scripted.clientset (fake.jobWith []) (fake.jobWith [])
                "prod" "batch-job-7"
                (scripted.world [inl (fake.jobWith []);
                                 inl (fake.jobWith [fake.condition "Failed" "True"])])
                1
                [inl (fake.jobWith []);
                 inl (fake.jobWith [fake.condition "Failed" "True"])]
                [inl (fake.jobWith [fake.condition "Failed" "True"])] []
                (inl (fake.jobWith [fake.condition "Failed" "True"]))) as H.
  at_run H. rewrite H. reflexivity.
Defined.

(** X19 at a concrete input: the created job never finishes; three attempts
    are allowed. *)
Lemma create_wait_times_out_witness :
  fst (resourceKubernetesJobV1Create (fake.dataOf None) fake.meta fake.emptyWorld)
  = (diag.Errorf "job: prod/batch-job-7 is not in complete state",
     fake.dataOf None).
Proof.
  pose proof (create_wait_times_out (fake.dataOf None) fake.meta fake.clientset
                (fake.jobWith []) (fake.jobWith []) "prod" "batch-job-7"
                fake.emptyWorld 2
                (remote (fake.worldWith (fake.jobWith [])))
                (remote (fake.worldWith (fake.jobWith [])))) as H.
  at_run H. rewrite H. reflexivity.
Defined.

(** X21 at a concrete input: the transport fails on the opening lookup. *)
Lemma update_lookup_error_witness :
  resourceKubernetesJobV1Update (fake.dataOf None) fake.brokenMeta fake.emptyWorld
  = ((diag.Errorf "Error retrieving Job: connection refused", fake.dataOf None),
     afterGet fake.emptyWorld "prod" "batch-job-7" ∅).
Proof.
  pose proof (update_lookup_error (fake.dataOf None) fake.brokenMeta
                fake.brokenClientset "prod" "batch-job-7" fake.emptyWorld
                fake.refused ∅) as H.
  at_input H. exact H.
Defined.

(** X22 at concrete inputs: a patch that cannot be marshalled, and a patch
    that the cluster refuses. *)
Lemma update_patch_not_applied_witness :
  @resourceKubernetesJobV1Update _ scripted.noMarshal (fake.dataOf None)
    scripted.meta (scripted.world [inl (fake.jobWith [])])
  = ((diag.Errorf "Failed to marshal update operations: unsupported value",
      fake.dataOf None),
     {| remote := []; calls := [CallGet "prod" "batch-job-7"] |})
  /\ resourceKubernetesJobV1Update (fake.dataOf None) scripted.noPatchMeta
       (scripted.world [inl (fake.jobWith [])])
     = ((diag.Errorf "Failed to update Job! API error: connection refused",
         fake.dataOf None),
        {| remote := [];
           calls := [CallGet "prod" "batch-job-7"; CallPatch "prod" "batch-job-7"] |}).
Proof.
  split.
  - pose proof (@update_patch_not_applied _ scripted.noMarshal (fake.dataOf None)
                  scripted.meta scripted.clientset "prod" "batch-job-7"
                  (scripted.world [inl (fake.jobWith [])]) (fake.jobWith []) [])
      as H.
    at_input H. destruct H as [H _].
    specialize (H (PlainError "unsupported value")).
    at_input H. exact H.
  - pose proof (update_patch_not_applied (fake.dataOf None)
                  scripted.noPatchMeta scripted.noPatchClientset
                  "prod" "batch-job-7"
                  (scripted.world [inl (fake.jobWith [])]) (fake.jobWith []) [])
      as H.
    at_input H. destruct H as [_ H].
    specialize (H "[]" fake.refused []).
    at_input H. exact H.
Defined.

(** X23 at a concrete input: the patched job is complete at the first
    lookup of the wait, and the read finds it twice. *)
Lemma update_waits_then_reads_witness :
  resourceKubernetesJobV1Update (fake.dataOf None) scripted.meta
    (scripted.world [inl (fake.jobWith []);
                     inl (fake.jobWith [fake.condition "Complete" "True"]);
                     inl (fake.jobWith [fake.condition "Complete" "True"]);
                     inl (fake.jobWith [fake.condition "Complete" "True"])])
  = (([], fake.dataOf None),
     {| remote := [];
        calls := [CallGet "prod" "batch-job-7"; CallPatch "prod" "batch-job-7";
                  CallGet "prod" "batch-job-7"; CallGet "prod" "batch-job-7";
                  CallGet "prod" "batch-job-7"] |}).
Proof.
  pose proof (update_waits_then_reads (fake.dataOf None) scripted.meta
                scripted.clientset "prod" "batch-job-7"
                (scripted.world [inl (fake.jobWith []);
                                 inl (fake.jobWith [fake.condition "Complete" "True"]);
                                 inl (fake.jobWith [fake.condition "Complete" "True"]);
                                 inl (fake.jobWith [fake.condition "Complete" "True"])])
                (fake.jobWith []) (fake.jobWith []) "[]" 0
                [inl (fake.jobWith [fake.condition "Complete" "True"]);
                 inl (fake.jobWith [fake.condition "Complete" "True"]);
                 inl (fake.jobWith [fake.condition "Complete" "True"])]
                [inl (fake.jobWith [fake.condition "Complete" "True"]);
                 inl (fake.jobWith [fake.condition "Complete" "True"]);
                 inl (fake.jobWith [fake.condition "Complete" "True"])]
                [inl (fake.jobWith [fake.condition "Complete" "True"]);
                 inl (fake.jobWith [fake.condition "Complete" "True"]);
                 inl (fake.jobWith [fake.condition "Complete" "True"])]
                [inl (fake.jobWith [fake.condition "Complete" "True"]);
                 inl (fake.jobWith [fake.condition "Complete" "True"])]
                (inl (fake.jobWith [fake.condition "Complete" "True"]))) as H.
  at_run H. rewrite H. reflexivity.
Defined.

(** ** A job that is gone, seen by the update and by the read *)

Section Vanished.

Context {Remote : Type} `{Helpers Remote}.

(** The empty string is not an integer. *)
Lemma Atoi_empty : strconv.Atoi EmptyString = inr strconv.ErrSyntax.
Proof. reflexivity. Qed.

(** X26: the update and the read disagree on a job whose lookup fails with
    a not-found status error.  With no TTL in the configuration the update
    succeeds and keeps the identifier, while the read drops the identifier.
    With a TTL that parses to a negative integer the update fails with the
    error that the job has been deleted, while the read keeps the
    identifier. *)
Theorem vanished_job_update_and_read (d : ResourceData.t)
  (meta : KubeClientsets Remote) (conn : Clientset Remote) (ns name : string)
  (w : World Remote) (err : error) (rem : Remote) :
  MainClientset meta = inl conn ->
  idParts (ResourceData.Id d) = inl (ns, name) ->
  JobsGet conn ns name (remote w) = (inr err, rem) ->
  isStatusNotFound err = true ->
  (ResourceData.attrs d !! ttlKey = None ->
   resourceKubernetesJobV1Update d meta w = (([], d), afterGet w ns name rem)
   /\ resourceKubernetesJobV1Read d meta w
      = (([], ResourceData.SetId EmptyString d), afterGet w ns name rem))
  /\ (forall s n,
        ResourceData.attrs d !! ttlKey = Some (IString s) ->
        strconv.Atoi s = inl n -> n < 0 ->
        resourceKubernetesJobV1Update d meta w
        = ((diag.Errorf (deletedMessage d), d), afterGet w ns name rem)
        /\ resourceKubernetesJobV1Read d meta w
           = (([], d), afterGet w ns name rem)).
Proof.
  intros Hconn Hparts Hget Hnf.
  assert (Hnf' : apierrors.IsNotFound err = true)
    by (rewrite <- isStatusNotFound_IsNotFound; exact Hnf).
  rewrite (update_missing d meta conn ns name w err rem Hconn Hparts Hget Hnf').
  unfold resourceKubernetesJobV1Read, bind.
  rewrite (exists_after_lookup d meta conn ns name w _ rem Hconn Hparts Hget).
  rewrite Hnf. simpl. unfold ret, ttlInt, ttlStr, ResourceData.Get.
  split.
  - intros Hnone. rewrite Hnone. simpl. auto.
  - intros s n Hsome Hparse Hneg. rewrite Hsome. simpl. rewrite Hparse.
    destruct (Z.geb_spec n 0) as [Hge | _]; [lia |].
    destruct s as [| c s']; [rewrite Atoi_empty in Hparse; discriminate |].
    simpl. auto.
Qed.

End Vanished.

(** X26 at a concrete input: the job is gone and no TTL is recorded. *)
Lemma vanished_job_update_and_read_witness :
  resourceKubernetesJobV1Update (fake.dataOf None) fake.meta fake.emptyWorld
  = (([], fake.dataOf None), afterGet fake.emptyWorld "prod" "batch-job-7" ∅)
  /\ resourceKubernetesJobV1Read (fake.dataOf None) fake.meta fake.emptyWorld
     = (([], ResourceData.SetId EmptyString (fake.dataOf None)),
        afterGet fake.emptyWorld "prod" "batch-job-7" ∅).
Proof.
  pose proof (vanished_job_update_and_read (fake.dataOf None) fake.meta
                fake.clientset "prod" "batch-job-7" fake.emptyWorld
                (apierrors.NewNotFound "batch-job-7") ∅) as H.
  at_input H. destruct H as [H _].
  at_input H. exact H.
Defined.

(** X2 at a concrete input: the TTL goes from 30 to 60 and the job is gone;
    the rule has forced, so the TTLs differ. *)
Lemma diff_changes_only_if_witness :
  oldTTLInt (fake.diffOf (IString "30") (IString "60"))
  <> newTTLInt (fake.diffOf (IString "30") (IString "60")).
Proof.
  pose proof (proj1 (diff_changes_only_if
                       (fake.diffOf (IString "30") (IString "60"))
                       fake.meta fake.emptyWorld)) as H.
  at_input H. exact H.
Defined.

(** X3 at a concrete input: no identifier is recorded. *)
Lemma diff_calls_witness :
  snd (resourceKubernetesJobV1CustomizeDiff
         {| ResourceDiff.id := EmptyString;
            ResourceDiff.changes := ∅;
            ResourceDiff.forcedNewKeys := [];
            ResourceDiff.clearedKeys := [] |}
         fake.meta fake.emptyWorld)
  = fake.emptyWorld.
Proof.
  pose proof (proj1 (diff_calls
                       {| ResourceDiff.id := EmptyString;
                          ResourceDiff.changes := ∅;
                          ResourceDiff.forcedNewKeys := [];
                          ResourceDiff.clearedKeys := [] |}
                       fake.meta fake.emptyWorld)) as H.
  at_input H. exact H.
Defined.

(** X5 at a concrete input: no client is available. *)
Lemma exists_true_iff_found_witness :
  fst (fst (resourceKubernetesJobV1Exists (fake.dataOf None) scripted.noMeta
              (scripted.world [])))
  = false
  /\ snd (resourceKubernetesJobV1Exists (fake.dataOf None) scripted.noMeta
            (scripted.world []))
     = scripted.world [].
Proof.
  pose proof (proj2 (exists_true_iff_found (fake.dataOf None) scripted.noMeta
                       (scripted.world [])) scripted.noClient) as H.
  at_input H.
  destruct H as [[Hfalse [Hworld _]] | [Htrue _]];
    [split; assumption | discriminate Htrue].
Defined.
